(** * cuey-ts: client-side validation, transport error mapping and facade

    A shallow embedding of the TypeScript client: the validators of
    [src/resources/base-resource.ts], the resource clients of
    [src/resources/events.ts] and [resources/crons], the [HttpClient] of
    [utils/http] (both found after the re-exports in [src/utils/errors.ts]),
    the error classes of [src/types/errors.ts] and the facade of
    [src/client.ts]; and the properties of it that the specification states.

    Conventions.
    - A JavaScript string is its sequence of UTF-16 code units.
    - A JavaScript number is a rational or one of NaN, +Infinity, -Infinity;
      only comparison with integer constants and [Number.isInteger] are used.
    - A [throw] is the [Thrown] outcome of a [result]; a normal return is
      [Returned].
    - The platform's [new URL(s)], [new Date(s)] and [Date.toISOString] are
      not code of the repository: they are variables of the section that
      holds the validators. *)

From Stdlib Require Import List ZArith NArith QArith Bool String Ascii Lia.
From Stdlib Require Import DecimalString.
Import ListNotations.

Set Warnings "-register-all".
Local Open Scope Z_scope.

(* ------------------------------------------------------------------ *)
(** ** Strings *)

Module JsString.

Definition jsstring := list N.

(** An ASCII literal as a JavaScript string. *)
Definition js (s : string) : jsstring :=
  map N_of_ascii (list_ascii_of_string s).

(** The double quote, U+0022. *)
Definition dquote : jsstring := [34%N].

Fixpoint str_eqb (a b : jsstring) : bool :=
  match a, b with
  | [], [] => true
  | x :: a', y :: b' => N.eqb x y && str_eqb a' b'
  | _, _ => false
  end.

(** [String.prototype.startsWith]. *)
Fixpoint startsWith (s p : jsstring) {struct p} : bool :=
  match p, s with
  | [], _ => true
  | x :: p', y :: s' => N.eqb x y && startsWith s' p'
  | _ :: _, [] => false
  end.

(** [String.prototype.includes]. *)
Fixpoint includes (s p : jsstring) : bool :=
  startsWith s p ||
  match s with
  | [] => false
  | _ :: s' => includes s' p
  end.

(** WhiteSpace and LineTerminator code points, the ones [trim] removes. *)
Definition isWhiteSpace (c : N) : bool :=
  existsb (N.eqb c)
    [9; 10; 11; 12; 13; 32; 160; 5760; 8232; 8233; 8239; 8287; 12288; 65279]%N
  || (N.leb 8192 c && N.leb c 8202).

Fixpoint trimStart (s : jsstring) : jsstring :=
  match s with
  | [] => []
  | c :: r => if isWhiteSpace c then trimStart r else s
  end.

Fixpoint trimEnd (s : jsstring) : jsstring :=
  match s with
  | [] => []
  | c :: r =>
      match trimEnd r with
      | [] => if isWhiteSpace c then [] else [c]
      | r' => c :: r'
      end
  end.

(** [String.prototype.trim]. *)
Definition trim (s : jsstring) : jsstring := trimEnd (trimStart s).

(** [s.replace(/\/$/, "")]: one slash at the very end is removed. *)
Fixpoint stripTrailingSlash (s : jsstring) : jsstring :=
  match s with
  | [] => []
  | [c] => if N.eqb c 47 then [] else [c]
  | c :: r => c :: stripTrailingSlash r
  end.

(** [Array.prototype.join] on an array of strings. *)
Fixpoint join (sep : jsstring) (l : list jsstring) : jsstring :=
  match l with
  | [] => []
  | [x] => x
  | x :: r => x ++ sep ++ join sep r
  end.

End JsString.
Export JsString.

(* ------------------------------------------------------------------ *)
(** ** Numbers and values *)

Inductive number :=
| Finite (q : Q)
| NaN
| PosInfinity
| NegInfinity.

(** [x < k] for an integer constant [k]. *)
Definition num_lt (x : number) (k : Z) : bool :=
  match x with
  | Finite q => negb (Qle_bool (inject_Z k) q)
  | NegInfinity => true
  | NaN | PosInfinity => false
  end.

(** [x > k] for an integer constant [k]. *)
Definition num_gt (x : number) (k : Z) : bool :=
  match x with
  | Finite q => negb (Qle_bool q (inject_Z k))
  | PosInfinity => true
  | NaN | NegInfinity => false
  end.

(** [Number.isInteger]. *)
Definition isInteger (x : number) : bool :=
  match x with
  | Finite q => Z.eqb (Qnum q mod Zpos (Qden q)) 0
  | _ => false
  end.

(** [VObject props]: the own enumerable properties in the order of
    [Object.entries], one entry per key. *)
Inductive value :=
| VUndefined
| VNull
| VBool (b : bool)
| VNumber (n : number)
| VString (s : jsstring)
| VObject (props : list (jsstring * value))
| VArray (items : list value).

Definition typeof (v : value) : jsstring :=
  match v with
  | VUndefined => js "undefined"
  | VNull => js "object"
  | VBool _ => js "boolean"
  | VNumber _ => js "number"
  | VString _ => js "string"
  | VObject _ | VArray _ => js "object"
  end.

(** ToBoolean. *)
Definition truthy (v : value) : bool :=
  match v with
  | VUndefined | VNull => false
  | VBool b => b
  | VNumber (Finite q) => negb (Qeq_bool q 0)
  | VNumber NaN => false
  | VNumber _ => true
  | VString s => negb (str_eqb s [])
  | VObject _ | VArray _ => true
  end.

(** [a || b]. *)
Definition or_else (a b : value) : value := if truthy a then a else b.

(** [a ?? b]. *)
Definition nullish (a b : value) : value :=
  match a with
  | VUndefined | VNull => b
  | _ => a
  end.

Fixpoint lookup (k : jsstring) (props : list (jsstring * value)) : value :=
  match props with
  | [] => VUndefined
  | (k', v) :: r => if str_eqb k k' then v else lookup k r
  end.

(** [string | undefined] as a value. *)
Definition of_opt (o : option jsstring) : value :=
  match o with
  | Some s => VString s
  | None => VUndefined
  end.

(* ------------------------------------------------------------------ *)
(** ** Errors ([src/types/errors.ts]) *)

Inductive ErrorName :=
| UnauthorizedError
| NotFoundError
| BadRequestError
| ValidationError
| InternalServerError.

(** An instance of a subclass of [CueyError].  [message] is the argument
    given to the constructor. *)
Record CueyError := mkCueyError {
  name : ErrorName;
  message : value;
  code : jsstring;
  statusCode : Z;
  details : value
}.

Definition newUnauthorizedError (m d : value) : CueyError :=
  mkCueyError UnauthorizedError m (js "UNAUTHORIZED") 401 d.
Definition newNotFoundError (m d : value) : CueyError :=
  mkCueyError NotFoundError m (js "NOT_FOUND") 404 d.
Definition newBadRequestError (m d : value) : CueyError :=
  mkCueyError BadRequestError m (js "BAD_REQUEST") 400 d.
Definition newValidationError (m : jsstring) (validationErrors : value)
  : CueyError :=
  mkCueyError ValidationError (VString m) (js "VALIDATION_ERROR") 400
    validationErrors.
Definition newInternalServerError (m d : value) : CueyError :=
  mkCueyError InternalServerError m (js "INTERNAL_SERVER_ERROR") 500 d.

(** What a [throw] can carry here: a [CueyError], a plain built-in [Error],
    or the [TypeError] of a property read on [null] or [undefined]. *)
Inductive exn :=
| ECuey (e : CueyError)
| EError (msg : jsstring)
| ETypeError.

Inductive result (A : Type) :=
| Returned (a : A)
| Thrown (e : exn).
Arguments Returned {A} a.
Arguments Thrown {A} e.

Definition bind {A B} (r : result A) (k : A -> result B) : result B :=
  match r with
  | Returned a => k a
  | Thrown e => Thrown e
  end.

Notation "x <- r ;; k" := (bind r (fun x => k))
  (at level 61, r at next level, right associativity).

Definition throwValidation {A} (m : jsstring) (d : value) : result A :=
  Thrown (ECuey (newValidationError m d)).

Definition isValidationError {A} (r : result A) : Prop :=
  exists m d, r = throwValidation m d.

Definition isThrown {A} (r : result A) : bool :=
  match r with
  | Thrown _ => true
  | Returned _ => false
  end.

(* ------------------------------------------------------------------ *)
(** ** The validation layer ([src/resources/base-resource.ts]) *)

(** [ALLOWED_HTTP_METHODS] of [src/types/models.ts]. *)
Definition ALLOWED_HTTP_METHODS : list jsstring :=
  [js "GET"; js "POST"; js "PUT"; js "PATCH"; js "DELETE"; js "HEAD";
   js "OPTIONS"].

Section BaseResource.

(** [new URL(s)] returns rather than throws. *)
Variable URL_ok : jsstring -> bool.
(** The time value of [new Date(s)], in milliseconds; [None] is NaN. *)
Variable Date_parse : jsstring -> option Z.
(** [Date.prototype.toISOString] of a valid time value. *)
Variable toISOString : Z -> jsstring.

(** [this.webhookBaseUrl]. *)
Variable webhookBaseUrl : option jsstring.

Definition field_value (f : jsstring) (v : value) : value :=
  VObject [(js "field", VString f); (js "value", v)].

Definition field_value_baseUrl (f : jsstring) (v : value) : value :=
  VObject [(js "field", VString f); (js "value", v);
           (js "baseUrl", of_opt webhookBaseUrl)].

Definition validateAndNormalizeWebhookUrl (webhookUrl : value)
  : result jsstring :=
  if negb (truthy webhookUrl)
     || negb (str_eqb (typeof webhookUrl) (js "string"))
  then
    throwValidation (js "webhook_url is required and must be a string")
      (field_value (js "webhook_url") webhookUrl)
  else
    match webhookUrl with
    | VString s =>
        let trimmed := trim s in
        if startsWith trimmed (js "http://")
           || startsWith trimmed (js "https://")
        then
          if URL_ok trimmed then Returned trimmed
          else
            throwValidation
              (js "Invalid webhook URL: " ++ dquote ++ trimmed ++ dquote
                 ++ js " is not a valid URL")
              (field_value (js "webhook_url") (VString trimmed))
        else if startsWith trimmed (js "/") then
          match webhookBaseUrl with
          | None | Some [] =>
              throwValidation
                (js "Relative webhook URL provided but no baseUrl is configured. "
                   ++ js "Either provide a full URL (starting with http:// or https://) "
                   ++ js "or configure baseUrl in CueyConfig or set CUEY_BASE_URL environment variable.")
                (field_value_baseUrl (js "webhook_url") (VString trimmed))
          | Some base =>
              let baseUrl := stripTrailingSlash base in
              let fullUrl := baseUrl ++ trimmed in
              if URL_ok fullUrl then Returned fullUrl
              else
                throwValidation
                  (js "Invalid webhook URL: Cannot combine baseUrl " ++ dquote
                     ++ base ++ dquote ++ js " with path " ++ dquote
                     ++ trimmed ++ dquote)
                  (field_value_baseUrl (js "webhook_url") (VString trimmed))
          end
        else
          throwValidation
            (js "Invalid webhook URL: " ++ dquote ++ trimmed ++ dquote
               ++ js " must be a full URL (starting with http:// or https://) or a relative path (starting with /)")
            (field_value (js "webhook_url") (VString trimmed))
    | _ =>
        (* excluded by the guard: only a string has typeof "string" *)
        throwValidation (js "webhook_url is required and must be a string")
          (field_value (js "webhook_url") webhookUrl)
    end.

(** A property read [o.k] on a value that passed [typeof o === "object"]
    and is not [null]: an array has none of the properties read here. *)
Definition prop (o : value) (k : jsstring) : value :=
  match o with
  | VObject props => lookup k props
  | _ => VUndefined
  end.

(** [v !== undefined]. *)
Definition defined (v : value) : bool :=
  match v with
  | VUndefined => false
  | _ => true
  end.

(** [typeof v !== "number" || v < lo || v > hi || !Number.isInteger(v)]. *)
Definition bad_int_range (v : value) (lo hi : Z) : bool :=
  match v with
  | VNumber n => num_lt n lo || num_gt n hi || negb (isInteger n)
  | _ => true
  end.

(** [v !== "exponential" && v !== "linear"]. *)
Definition bad_backoffType (v : value) : bool :=
  match v with
  | VString s =>
      negb (str_eqb s (js "exponential")) && negb (str_eqb s (js "linear"))
  | _ => true
  end.

Definition validateRetryConfig (retryConfig : value) : result unit :=
  match retryConfig with
  | VNull | VUndefined => Returned tt
  | _ =>
      if negb (str_eqb (typeof retryConfig) (js "object")) then
        throwValidation (js "retry_config must be an object or null")
          (field_value (js "retry_config") retryConfig)
      else
        let maxRetries := prop retryConfig (js "maxRetries") in
        let backoffMs := prop retryConfig (js "backoffMs") in
        let backoffType := prop retryConfig (js "backoffType") in
        if defined maxRetries && bad_int_range maxRetries 1 10 then
          throwValidation
            (js "retry_config.maxRetries must be an integer between 1 and 10")
            (field_value (js "retry_config.maxRetries") maxRetries)
        else if defined backoffMs && bad_int_range backoffMs 100 5000 then
          throwValidation
            (js "retry_config.backoffMs must be an integer between 100 and 5000")
            (field_value (js "retry_config.backoffMs") backoffMs)
        else if defined backoffType && bad_backoffType backoffType then
          throwValidation
            (js "retry_config.backoffType must be either " ++ dquote
               ++ js "exponential" ++ dquote ++ js " or " ++ dquote
               ++ js "linear" ++ dquote)
            (field_value (js "retry_config.backoffType") backoffType)
        else Returned tt
  end.

Definition header_details (key : jsstring) (v : value) : value :=
  VObject [(js "field", VString (js "headers")); (js "key", VString key);
           (js "value", v)].

(** The loop over [Object.entries(headers)]. *)
Fixpoint validateHeaderEntries (entries : list (jsstring * value))
  : result unit :=
  match entries with
  | [] => Returned tt
  | (key, v) :: rest =>
      if str_eqb (trim key) [] then
        throwValidation (js "All header keys must be non-empty strings")
          (header_details key v)
      else
        match v with
        | VString _ => validateHeaderEntries rest
        | _ =>
            throwValidation
              (js "Header " ++ dquote ++ key ++ dquote
                 ++ js " must have a string value")
              (header_details key v)
        end
  end.

Definition validateHeaders (headers : value) : result unit :=
  match headers with
  | VNull | VUndefined => Returned tt
  | VObject props => validateHeaderEntries props
  | _ =>
      (* not an object, or an array *)
      throwValidation (js "headers must be an object or null")
        (VObject [(js "field", VString (js "headers")); (js "value", headers)])
  end.

(** [ALLOWED_HTTP_METHODS.includes(method)]. *)
Definition allowed_method (m : jsstring) : bool :=
  existsb (str_eqb m) ALLOWED_HTTP_METHODS.

(** [method?: HttpMethod]: a string or [undefined]. *)
Definition validateMethod (method : option jsstring)
  : result (option jsstring) :=
  match method with
  | None => Returned None
  | Some m =>
      if negb (allowed_method m) then
        throwValidation
          (js "Invalid HTTP method: " ++ dquote ++ m ++ dquote
             ++ js ". Must be one of: " ++ join (js ", ") ALLOWED_HTTP_METHODS)
          (VObject [(js "field", VString (js "method"));
                    (js "value", VString m);
                    (js "allowedMethods",
                     VArray (map VString ALLOWED_HTTP_METHODS))])
      else Returned (Some m)
  end.

(** [now] is the reading of the clock by [new Date()] in the call.
    [new Date(trimmed)] does not throw on a string, so the [catch] around
    it never runs; an unparseable string gives the NaN time value. *)
Definition validateScheduledAt (now : Z) (scheduledAt : value) : result unit :=
  if negb (truthy scheduledAt)
     || negb (str_eqb (typeof scheduledAt) (js "string"))
  then
    throwValidation (js "scheduled_at is required and must be a string")
      (field_value (js "scheduled_at") scheduledAt)
  else
    match scheduledAt with
    | VString s =>
        let trimmed := trim s in
        if str_eqb trimmed [] then
          throwValidation (js "scheduled_at cannot be empty")
            (field_value (js "scheduled_at") scheduledAt)
        else
          match Date_parse trimmed with
          | None =>
              throwValidation
                (js "Invalid scheduled_at: " ++ dquote ++ trimmed ++ dquote
                   ++ js " is not a valid date")
                (field_value (js "scheduled_at") (VString trimmed))
          | Some date =>
              if date <=? now then
                throwValidation
                  (js "scheduled_at must be in the future. Received: "
                     ++ dquote ++ trimmed ++ dquote)
                  (VObject [(js "field", VString (js "scheduled_at"));
                            (js "value", VString trimmed);
                            (js "now", VString (toISOString now))])
              else Returned tt
          end
    | _ =>
        (* excluded by the guard: only a string has typeof "string" *)
        throwValidation (js "scheduled_at is required and must be a string")
          (field_value (js "scheduled_at") scheduledAt)
    end.

End BaseResource.

(* ------------------------------------------------------------------ *)
(** ** The transport adapter ([HttpClient], in [src/utils/errors.ts]) *)

(** [process.env], when [process] and [process.env] are defined. *)
Record EnvVars := mkEnv {
  CUEY_BASE_URL : option jsstring;
  CUEY_API_KEY : option jsstring
}.
Definition ProcessEnv := option EnvVars.

Record RequestOptions := mkOptions {
  opt_method : option jsstring;
  opt_body : value;
  opt_headers : list (jsstring * jsstring)
}.

(** [init_body] is the value that [request] hands to [JSON.stringify];
    the serialization itself is not modelled. *)
Record FetchInit := mkInit {
  init_method : jsstring;
  init_headers : list (jsstring * jsstring);
  init_body : option value
}.

(** The outcome of [response.json()]: the parsed value, or a rejection
    with the message of its error when it is an [Error]. *)
Inductive JsonBody :=
| Parsed (v : value)
| ParseFailure (reason : option jsstring).

Record Response := mkResponse {
  status : Z;
  content_type : option jsstring;
  json : JsonBody;
  text : jsstring
}.

(** [response.ok]. *)
Definition ok (r : Response) : bool :=
  (200 <=? status r) && (status r <=? 299).

(** [{...a, ...b}] on string-valued records. *)
Fixpoint assign (a b : list (jsstring * jsstring))
  : list (jsstring * jsstring) :=
  match b with
  | [] => a
  | (k, v) :: r =>
      let fix set (l : list (jsstring * jsstring)) :=
        match l with
        | [] => [(k, v)]
        | (k', v') :: l' =>
            if str_eqb k k' then (k, v) :: l' else (k', v') :: set l'
        end in
      assign (set a) r
  end.

(** The decimal rendering of an integer status code. *)
Definition Z_to_js (z : Z) : jsstring :=
  js (NilZero.string_of_int (Z.to_int z)).

(** [data.error]: a [TypeError] on [null] and [undefined]. *)
Definition read_error (data : value) : result value :=
  match data with
  | VNull | VUndefined => Thrown ETypeError
  | VObject props => Returned (lookup (js "error") props)
  | _ => Returned VUndefined
  end.

(** [e?.k] for the keys read here. *)
Definition opt_prop (e : value) (k : jsstring) : value :=
  match e with
  | VObject props => lookup k props
  | _ => VUndefined
  end.

(** [code === "VALIDATION_ERROR"]. *)
Definition is_validation_code (c : value) : bool :=
  match c with
  | VString s => str_eqb s (js "VALIDATION_ERROR")
  | _ => false
  end.

Module HttpClient.

(** What [handleError] throws. *)
Definition handleError (statusCode : Z) (data : value) : exn :=
  match read_error data with
  | Thrown e => e
  | Returned err =>
      let msg := opt_prop err (js "message") in
      let det := opt_prop err (js "details") in
      if statusCode =? 401 then
        ECuey (newUnauthorizedError
                 (or_else msg
                    (VString (js "Unauthorized. Invalid or missing API key.")))
                 det)
      else if statusCode =? 404 then
        ECuey (newNotFoundError
                 (or_else msg (VString (js "Resource not found."))) det)
      else if statusCode =? 400 then
        if is_validation_code (opt_prop err (js "code")) then
          ECuey (mkCueyError ValidationError
                   (or_else msg (VString (js "Validation error")))
                   (js "VALIDATION_ERROR") 400 det)
        else
          ECuey (newBadRequestError
                   (or_else msg (VString (js "Bad request"))) det)
      else if statusCode >=? 500 then
        ECuey (newInternalServerError
                 (or_else msg
                    (VString (js "An internal server error occurred.")))
                 det)
      else
        ECuey (newInternalServerError
                 (VString (js "Unexpected error: " ++ Z_to_js statusCode))
                 det)
  end.

Section Instance.

(** The constant imported from [../constants]. *)
Variable CUEY_API_BASE_URL : jsstring.
(** The remote end: the response [fetch] resolves to.  A [fetch] that
    rejects gives no response and is not part of the model. *)
Variable fetch : jsstring -> FetchInit -> Response.

(** [config.getApiKey], a closure that reads [process.env] when called. *)
Variable getApiKey : ProcessEnv -> result jsstring.

(** The body of the response as [request] reads it. *)
Definition read_body (response : Response) : result value :=
  match content_type response with
  | Some ct =>
      if includes ct (js "application/json") then
        match json response with
        | Parsed v => Returned v
        | ParseFailure reason =>
            Thrown (ECuey (newInternalServerError
              (VString (js "Failed to parse JSON response: " ++
                 match reason with
                 | Some m => m
                 | None => js "Unknown error"
                 end))
              VUndefined))
        end
      else Returned (VString (text response))
  | None => Returned (VString (text response))
  end.

Definition request (env : ProcessEnv) (path : jsstring)
  (options : RequestOptions) : result value :=
  apiKey <- getApiKey env ;;
  let url := CUEY_API_BASE_URL ++ path in
  let headers :=
    assign [(js "Content-Type", js "application/json");
            (js "Authorization", js "Bearer " ++ apiKey)]
           (opt_headers options) in
  let response :=
    fetch url
      (mkInit
         match opt_method options with
         | Some (c :: m) => c :: m
         | _ => js "GET"
         end
         headers
         match opt_body options with
         | VUndefined => None
         | body => Some body
         end) in
  data <- read_body response ;;
  if negb (ok response) then Thrown (handleError (status response) data)
  else Returned data.

Definition get (env : ProcessEnv) (path : jsstring) : result value :=
  request env path (mkOptions (Some (js "GET")) VUndefined []).

Definition post (env : ProcessEnv) (path : jsstring) (body : value)
  : result value :=
  request env path (mkOptions (Some (js "POST")) body []).

Definition put (env : ProcessEnv) (path : jsstring) (body : value)
  : result value :=
  request env path (mkOptions (Some (js "PUT")) body []).

Definition delete (env : ProcessEnv) (path : jsstring) : result value :=
  request env path (mkOptions (Some (js "DELETE")) VUndefined []).

End Instance.

End HttpClient.

(* ------------------------------------------------------------------ *)
(** ** The resource clients ([src/resources/events.ts]; [CronsResource],
       in [src/utils/errors.ts]) *)

(** [CreateEventInput] and [UpdateEventInput]. *)
Record EventInput := mkEventInput {
  webhook_url : value;
  method : option jsstring;
  scheduled_at : value;
  headers : value;
  payload : value;
  retry_config : value
}.

(** [CreateCronInput] and [UpdateCronInput]. *)
Record CronInput := mkCronInput {
  c_webhook_url : value;
  c_method : option jsstring;
  cron_expression : value;
  timezone : value;
  c_headers : value;
  c_payload : value;
  c_retry_config : value;
  is_active : value
}.

Definition event_body (i : EventInput) : value :=
  VObject [(js "webhook_url", webhook_url i);
           (js "method", of_opt (method i));
           (js "scheduled_at", scheduled_at i);
           (js "headers", headers i);
           (js "payload", payload i);
           (js "retry_config", retry_config i)].

Definition cron_body (i : CronInput) : value :=
  VObject [(js "webhook_url", c_webhook_url i);
           (js "method", of_opt (c_method i));
           (js "cron_expression", cron_expression i);
           (js "timezone", timezone i);
           (js "headers", c_headers i);
           (js "payload", c_payload i);
           (js "retry_config", c_retry_config i);
           (js "is_active", is_active i)].

(** [input.method ?? "POST"]. *)
Definition method_or_POST (m : option jsstring) : option jsstring :=
  match m with
  | Some m => Some m
  | None => Some (js "POST")
  end.

(** [response.data]. *)
Definition read_data (response : value) : result value :=
  match response with
  | VNull | VUndefined => Thrown ETypeError
  | VObject props => Returned (lookup (js "data") props)
  | _ => Returned VUndefined
  end.

(** [queryString] is [queryParams.toString()]. *)
Definition list_path (collection queryString : jsstring) : jsstring :=
  collection ++
  match queryString with
  | [] => []
  | _ => js "?" ++ queryString
  end.

Module EventsResource.

Section Instance.

Variable URL_ok : jsstring -> bool.
Variable Date_parse : jsstring -> option Z.
Variable toISOString : Z -> jsstring.
Variable CUEY_API_BASE_URL : jsstring.
Variable fetch : jsstring -> FetchInit -> Response.

(** The two constructor arguments: the closure of [this.http] and
    [this.webhookBaseUrl]. *)
Variable getApiKey : ProcessEnv -> result jsstring.
Variable webhookBaseUrl : option jsstring.

Let http_get := HttpClient.get CUEY_API_BASE_URL fetch getApiKey.
Let http_post := HttpClient.post CUEY_API_BASE_URL fetch getApiKey.
Let http_put := HttpClient.put CUEY_API_BASE_URL fetch getApiKey.
Let http_delete := HttpClient.delete CUEY_API_BASE_URL fetch getApiKey.

Definition get (env : ProcessEnv) (id : jsstring) : result value :=
  response <- http_get env (js "/api/v1/events/" ++ id) ;;
  read_data response.

(** [create] up to the request: the statements that compute
    [validatedInput] and validate it. *)
Definition create_validatedInput (now : Z) (input : EventInput)
  : result EventInput :=
  _ <- validateScheduledAt Date_parse toISOString now (scheduled_at input) ;;
  m <- validateMethod (method_or_POST (method input)) ;;
  u <- validateAndNormalizeWebhookUrl URL_ok webhookBaseUrl
         (webhook_url input) ;;
  let validatedInput :=
    mkEventInput (VString u) m (scheduled_at input) (headers input)
      (payload input) (retry_config input) in
  _ <- validateRetryConfig (nullish (retry_config validatedInput) VNull) ;;
  _ <- validateHeaders (nullish (headers validatedInput) VNull) ;;
  Returned validatedInput.

Definition create (now : Z) (env : ProcessEnv) (input : EventInput)
  : result value :=
  validatedInput <- create_validatedInput now input ;;
  response <- http_post env (js "/api/v1/events")
                (event_body validatedInput) ;;
  read_data response.

(** [update] up to the request. *)
Definition update_validatedInput (now : Z) (input : EventInput)
  : result EventInput :=
  _ <- validateScheduledAt Date_parse toISOString now (scheduled_at input) ;;
  m <- validateMethod (method input) ;;
  u <- validateAndNormalizeWebhookUrl URL_ok webhookBaseUrl
         (webhook_url input) ;;
  let validatedInput :=
    mkEventInput (VString u) m (scheduled_at input) (headers input)
      (payload input) (retry_config input) in
  _ <- validateRetryConfig (nullish (retry_config validatedInput) VNull) ;;
  _ <- validateHeaders (nullish (headers validatedInput) VNull) ;;
  Returned validatedInput.

Definition update (now : Z) (env : ProcessEnv) (id : jsstring)
  (input : EventInput) : result value :=
  validatedInput <- update_validatedInput now input ;;
  response <- http_put env (js "/api/v1/events/" ++ id)
                (event_body validatedInput) ;;
  read_data response.

Definition delete (env : ProcessEnv) (id : jsstring) : result unit :=
  _ <- http_delete env (js "/api/v1/events/" ++ id) ;;
  Returned tt.

Definition list (env : ProcessEnv) (queryString : jsstring)
  : result value :=
  http_get env (list_path (js "/api/v1/events") queryString).

End Instance.

End EventsResource.

Module CronsResource.

Section Instance.

Variable URL_ok : jsstring -> bool.
Variable CUEY_API_BASE_URL : jsstring.
Variable fetch : jsstring -> FetchInit -> Response.

(** The two constructor arguments: the closure of [this.http] and
    [this.webhookBaseUrl]. *)
Variable getApiKey : ProcessEnv -> result jsstring.
Variable webhookBaseUrl : option jsstring.

Let http_get := HttpClient.get CUEY_API_BASE_URL fetch getApiKey.
Let http_post := HttpClient.post CUEY_API_BASE_URL fetch getApiKey.
Let http_put := HttpClient.put CUEY_API_BASE_URL fetch getApiKey.
Let http_delete := HttpClient.delete CUEY_API_BASE_URL fetch getApiKey.

Definition get (env : ProcessEnv) (id : jsstring) : result value :=
  response <- http_get env (js "/api/v1/crons/" ++ id) ;;
  read_data response.

(** [create] up to the request. *)
Definition create_validatedInput (input : CronInput)
  : result CronInput :=
  m <- validateMethod (method_or_POST (c_method input)) ;;
  u <- validateAndNormalizeWebhookUrl URL_ok webhookBaseUrl
         (c_webhook_url input) ;;
  let validatedInput :=
    mkCronInput (VString u) m (cron_expression input) (timezone input)
      (c_headers input) (c_payload input) (c_retry_config input)
      (is_active input) in
  _ <- validateRetryConfig (nullish (c_retry_config validatedInput) VNull) ;;
  _ <- validateHeaders (nullish (c_headers validatedInput) VNull) ;;
  Returned validatedInput.

(** [update] up to the request. *)
Definition update_validatedInput (input : CronInput)
  : result CronInput :=
  m <- validateMethod (c_method input) ;;
  u <- validateAndNormalizeWebhookUrl URL_ok webhookBaseUrl
         (c_webhook_url input) ;;
  let validatedInput :=
    mkCronInput (VString u) m (cron_expression input) (timezone input)
      (c_headers input) (c_payload input) (c_retry_config input)
      (is_active input) in
  _ <- validateRetryConfig (nullish (c_retry_config validatedInput) VNull) ;;
  _ <- validateHeaders (nullish (c_headers validatedInput) VNull) ;;
  Returned validatedInput.

Definition create (env : ProcessEnv) (input : CronInput)
  : result value :=
  validatedInput <- create_validatedInput input ;;
  response <- http_post env (js "/api/v1/crons")
                (cron_body validatedInput) ;;
  read_data response.

Definition update (env : ProcessEnv) (id : jsstring)
  (input : CronInput) : result value :=
  validatedInput <- update_validatedInput input ;;
  response <- http_put env (js "/api/v1/crons/" ++ id)
                (cron_body validatedInput) ;;
  read_data response.

Definition delete (env : ProcessEnv) (id : jsstring) : result unit :=
  _ <- http_delete env (js "/api/v1/crons/" ++ id) ;;
  Returned tt.

Definition list (env : ProcessEnv) (queryString : jsstring)
  : result value :=
  http_get env (list_path (js "/api/v1/crons") queryString).

End Instance.

End CronsResource.

(* ------------------------------------------------------------------ *)
(** ** The facade ([src/client.ts]) *)

Record CueyConfig := mkConfig {
  baseUrl : option jsstring;
  apiKey : option jsstring
}.

(** [typeof process !== "undefined" && typeof process.env !== "undefined"
    && process.env.X]. *)
Definition env_read (env : ProcessEnv) (X : EnvVars -> option jsstring)
  : value :=
  match env with
  | None => VBool false
  | Some vars => of_opt (X vars)
  end.

(** [explicit || fromEnv || undefined]. *)
Definition resolve (explicit : option jsstring) (fromEnv : value) : value :=
  or_else (of_opt explicit) (or_else fromEnv VUndefined).

Definition API_KEY_REQUIRED : jsstring :=
  js "API key is required. Provide it via config.apiKey or set the CUEY_API_KEY environment variable.".

(** The closure [getApiKey] of the constructor; [env] is [process.env]
    when the closure is called. *)
Definition getApiKey (config : CueyConfig) (env : ProcessEnv)
  : result jsstring :=
  let apiKey := resolve (apiKey config) (env_read env CUEY_API_KEY) in
  if negb (truthy apiKey) then Thrown (EError API_KEY_REQUIRED)
  else
    match apiKey with
    | VString k => Returned k
    | _ =>
        (* excluded: [resolve] gives a string or [undefined] *)
        Thrown (EError API_KEY_REQUIRED)
    end.

(** An instance: the base URL fixed by the constructor and the closure
    handed to the [HttpClient] that both resources share. *)
Record Cuey := mkCuey {
  webhookBaseUrl : option jsstring;
  http_getApiKey : ProcessEnv -> result jsstring
}.

(** [new Cuey(config)], run when [process.env] is [env0].
    [undefined] for [config] is the default [{}]. *)
Definition Cuey_new (config : option CueyConfig) (env0 : ProcessEnv)
  : result Cuey :=
  let config :=
    match config with
    | Some c => c
    | None => mkConfig None None
    end in
  let webhookBaseUrl :=
    match resolve (baseUrl config) (env_read env0 CUEY_BASE_URL) with
    | VString b => Some b
    | _ => None
    end in
  Returned (mkCuey webhookBaseUrl (getApiKey config)).

(** The default instance [cuey = new Cuey()]. *)
Definition cuey (env0 : ProcessEnv) : result Cuey := Cuey_new None env0.

(* ------------------------------------------------------------------ *)
(** ** The vocabulary of the properties

    Predicates and constants in which the properties below are stated,
    stand-ins for the platform used by the examples, and proof tactics. *)

(** No code unit of [p] is white space. *)
Definition no_space (p : jsstring) : bool :=
  forallb (fun c => negb (isWhiteSpace c)) p.

(** A stand-in for the platform's URL parser, used where an example needs
    one: it accepts the strings with an [http://] or [https://] prefix that
    hold no white space. *)
Definition sample_URL_ok (u : jsstring) : bool :=
  (startsWith u (js "http://") || startsWith u (js "https://"))
  && no_space u.

(** The inputs the validator rejects, in the terms of C4. *)
Definition absolute (t : jsstring) : bool :=
  startsWith t (js "http://") || startsWith t (js "https://").

Inductive rejected (URL_ok : jsstring -> bool) (base : option jsstring)
  : value -> Prop :=
| rej_not_string v :
    (forall s, v <> VString s) -> rejected URL_ok base v
| rej_empty :
    rejected URL_ok base (VString [])
| rej_shape s :
    absolute (trim s) = false -> startsWith (trim s) (js "/") = false ->
    rejected URL_ok base (VString s)
| rej_no_base s :
    startsWith (trim s) (js "/") = true ->
    base = None \/ base = Some [] ->
    rejected URL_ok base (VString s)
| rej_unparsable_absolute s :
    absolute (trim s) = true -> URL_ok (trim s) = false ->
    rejected URL_ok base (VString s)
| rej_unparsable_resolved s b :
    startsWith (trim s) (js "/") = true ->
    base = Some b -> URL_ok (stripTrailingSlash b ++ trim s) = false ->
    rejected URL_ok base (VString s).

(** [v] is a number whose value is an integer between [lo] and [hi]. *)
Definition integer_in (lo hi : Z) (v : value) : Prop :=
  exists q z, v = VNumber (Finite q) /\ (q == inject_Z z)%Q /\ lo <= z <= hi.

Definition backoffType_ok (v : value) : Prop :=
  v = VString (js "exponential") \/ v = VString (js "linear").

(** The field is not present, or it satisfies [P]. *)
Definition absent_or (P : value -> Prop) (v : value) : Prop :=
  v = VUndefined \/ P v.

Definition maxRetries_message : jsstring :=
  js "retry_config.maxRetries must be an integer between 1 and 10".
Definition backoffMs_message : jsstring :=
  js "retry_config.backoffMs must be an integer between 100 and 5000".
Definition backoffType_message : jsstring :=
  js "retry_config.backoffType must be either " ++ dquote
    ++ js "exponential" ++ dquote ++ js " or " ++ dquote
    ++ js "linear" ++ dquote.

(** A retry configuration given as an object literal. *)
Definition retry_object (maxRetries backoffMs backoffType : value) : value :=
  VObject [(js "maxRetries", maxRetries); (js "backoffMs", backoffMs);
           (js "backoffType", backoffType)].

Definition num (z : Z) : value := VNumber (Finite (inject_Z z)).

Ltac validation_error :=
  unfold isValidationError; do 2 eexists; reflexivity.

Definition past_message (trimmed : jsstring) : jsstring :=
  js "scheduled_at must be in the future. Received: "
    ++ dquote ++ trimmed ++ dquote.

Definition past_details (trimmed now_iso : jsstring) : value :=
  VObject [(js "field", VString (js "scheduled_at"));
           (js "value", VString trimmed);
           (js "now", VString now_iso)].

(** A stand-in for the platform's date parser, used where an example
    needs one: it knows two instants. *)
Definition sample_Date_parse (s : jsstring) : option Z :=
  if str_eqb s (js "2030-01-01T00:00:00.000Z") then Some 1893456000000
  else if str_eqb s (js "2020-01-01T00:00:00.000Z") then Some 1577836800000
  else None.

Definition method_message (m : jsstring) : jsstring :=
  js "Invalid HTTP method: " ++ dquote ++ m ++ dquote
    ++ js ". Must be one of: " ++ join (js ", ") ALLOWED_HTTP_METHODS.

Definition method_details (m : jsstring) : value :=
  VObject [(js "field", VString (js "method"));
           (js "value", VString m);
           (js "allowedMethods", VArray (map VString ALLOWED_HTTP_METHODS))].

Definition sample_event (m : option jsstring) : EventInput :=
  mkEventInput (VString (js "https://example.com/webhook")) m
    (VString (js "2030-01-01T00:00:00.000Z")) VUndefined VUndefined VUndefined.

Definition is_validation_exn (e : exn) : Prop :=
  exists m d, e = ECuey (newValidationError m d).

Ltac split_validator :=
  unfold throwValidation;
  repeat match goal with
         | |- context [if ?b then _ else _] => destruct b
         | |- context [match ?x with _ => _ end] => destruct x
         end;
  intros H; inversion H; unfold is_validation_exn; eauto.

Definition thrown {A} (r : result A) : option exn :=
  match r with
  | Thrown e => Some e
  | Returned _ => None
  end.

Fixpoint first_thrown (checks : list (option exn)) : option exn :=
  match checks with
  | [] => None
  | Some e :: _ => Some e
  | None :: rest => first_thrown rest
  end.

(** The five validations of an event input, each on its own field, in the
    order in which [events.create] runs them. *)
Definition events_create_checks (URL_ok : jsstring -> bool)
  (Date_parse : jsstring -> option Z) (toISOString : Z -> jsstring)
  (base : option jsstring) (now : Z) (input : EventInput)
  : list (option exn) :=
  [thrown (validateScheduledAt Date_parse toISOString now
             (scheduled_at input));
   thrown (validateMethod (method_or_POST (method input)));
   thrown (validateAndNormalizeWebhookUrl URL_ok base (webhook_url input));
   thrown (validateRetryConfig (nullish (retry_config input) VNull));
   thrown (validateHeaders (nullish (headers input) VNull))].

(** [e instanceof CueyError], [e instanceof C] for a subclass [C], and the
    reads [e.code] and [e.statusCode]. *)
Definition instanceof_CueyError (e : exn) : bool :=
  match e with
  | ECuey _ => true
  | _ => false
  end.

Definition ErrorName_eqb (a b : ErrorName) : bool :=
  match a, b with
  | UnauthorizedError, UnauthorizedError
  | NotFoundError, NotFoundError
  | BadRequestError, BadRequestError
  | ValidationError, ValidationError
  | InternalServerError, InternalServerError => true
  | _, _ => false
  end.

Definition instanceof (e : exn) (C : ErrorName) : bool :=
  match e with
  | ECuey c => ErrorName_eqb (name c) C
  | _ => false
  end.

Definition exn_code (e : exn) : option jsstring :=
  match e with
  | ECuey c => Some (code c)
  | _ => None
  end.

Definition exn_statusCode (e : exn) : option Z :=
  match e with
  | ECuey c => Some (statusCode c)
  | _ => None
  end.

(** The class C8 assigns to a status and a server error code. *)
Definition class_of_status (statusCode : Z) (server_code : value)
  : ErrorName :=
  if statusCode =? 401 then UnauthorizedError
  else if statusCode =? 404 then NotFoundError
  else if statusCode =? 400 then
    if is_validation_code server_code then ValidationError
    else BadRequestError
  else InternalServerError.

(** A response with the given status whose JSON body is [null]. *)
Definition null_body_response (statusCode : Z) : Response :=
  mkResponse statusCode (Some (js "application/json")) (Parsed VNull) [].

(** A stand-in for the remote end, used where an example needs one: it
    answers every request with an empty list. *)
Definition sample_fetch (url : jsstring) (init : FetchInit) : Response :=
  mkResponse 200 (Some (js "application/json"))
    (Parsed (VObject [(js "data", VArray [])])) [].

(** A string that is given and not empty. *)
Definition present (o : option jsstring) : option jsstring :=
  match o with
  | Some (c :: s) => Some (c :: s)
  | _ => None
  end.

(** The explicit value when it is present, else the fallback when it is. *)
Definition first_present (explicit fallback : option jsstring)
  : option jsstring :=
  match present explicit with
  | Some x => Some x
  | None => present fallback
  end.

(** The variable [X] of the environment, when there is an environment. *)
Definition env_var (env : ProcessEnv) (X : EnvVars -> option jsstring)
  : option jsstring :=
  match env with
  | Some vars => X vars
  | None => None
  end.

Definition default_config (config : option CueyConfig) : CueyConfig :=
  match config with
  | Some c => c
  | None => mkConfig None None
  end.

(** The input [i] with the method [m]. *)
Definition with_method (i : EventInput) (m : option jsstring) : EventInput :=
  mkEventInput (webhook_url i) m (scheduled_at i) (headers i) (payload i)
    (retry_config i).

Definition with_c_method (i : CronInput) (m : option jsstring) : CronInput :=
  mkCronInput (c_webhook_url i) m (cron_expression i) (timezone i)
    (c_headers i) (c_payload i) (c_retry_config i) (is_active i).

(** A stand-in for the remote end, used where an example needs to see
    what was sent: it answers with the body it received as [data]. *)
Definition echo_fetch (url : jsstring) (init : FetchInit) : Response :=
  mkResponse 200 (Some (js "application/json"))
    (Parsed (VObject [(js "data",
                       match init_body init with
                       | Some body => body
                       | None => VNull
                       end)])) [].

(* ------------------------------------------------------------------ *)
(** ** The query strings of [list] ([src/resources/events.ts];
       [CronsResource.list], in [src/utils/errors.ts]) *)

(** [EventsQueryParams]. *)
Record EventsQueryParams := mkEventsQuery {
  eq_page : option number;
  eq_limit : option number;
  eq_status : option jsstring;
  eq_cron_id : option jsstring
}.

(** [CronsQueryParams]. *)
Record CronsQueryParams := mkCronsQuery {
  cq_page : option number;
  cq_limit : option number;
  cq_is_active : option bool
}.

(** A [URLSearchParams]: its list of name-value pairs. *)
Definition URLSearchParams := list (jsstring * jsstring).

(** [URLSearchParams.prototype.set]: the first pair of that name takes the
    value and the others are removed; with no such pair one is appended. *)
Fixpoint usp_set (q : URLSearchParams) (name value : jsstring)
  : URLSearchParams :=
  match q with
  | [] => [(name, value)]
  | (k, v) :: r =>
      if str_eqb k name then
        (name, value)
        :: filter (fun kv => negb (str_eqb (fst kv) name)) r
      else (k, v) :: usp_set r name value
  end.

(** [params?.f]. *)
Definition opt_field {P A} (params : option P) (f : P -> option A)
  : option A :=
  match params with
  | Some p => f p
  | None => None
  end.

(** [if (v !== undefined) { queryParams.set(name, render(v)); }]. *)
Definition set_if_defined {A} (q : URLSearchParams) (name : jsstring)
  (v : option A) (render : A -> jsstring) : URLSearchParams :=
  match v with
  | Some x => usp_set q name (render x)
  | None => q
  end.

(** [Boolean.prototype.toString]. *)
Definition Boolean_toString (b : bool) : jsstring :=
  if b then js "true" else js "false".

Module ListQuery.

Section Instance.

(** [Number.prototype.toString]. *)
Variable Number_toString : number -> jsstring.
(** The application/x-www-form-urlencoded serializer of a name or a value,
    as [URLSearchParams.prototype.toString] applies it. *)
Variable form_urlencode : jsstring -> jsstring.

(** [URLSearchParams.prototype.toString]. *)
Definition toString (q : URLSearchParams) : jsstring :=
  join (js "&")
    (map (fun kv => form_urlencode (fst kv) ++ js "=" ++ form_urlencode (snd kv))
       q).

(** [queryParams] at the end of [EventsResource.list]. *)
Definition events_queryParams (params : option EventsQueryParams)
  : URLSearchParams :=
  let q := [] in
  let q := set_if_defined q (js "page") (opt_field params eq_page)
             Number_toString in
  let q := set_if_defined q (js "limit") (opt_field params eq_limit)
             Number_toString in
  let q := set_if_defined q (js "status") (opt_field params eq_status)
             (fun s => s) in
  let q := set_if_defined q (js "cron_id") (opt_field params eq_cron_id)
             (fun s => s) in
  q.

(** [queryParams] at the end of [CronsResource.list]. *)
Definition crons_queryParams (params : option CronsQueryParams)
  : URLSearchParams :=
  let q := [] in
  let q := set_if_defined q (js "page") (opt_field params cq_page)
             Number_toString in
  let q := set_if_defined q (js "limit") (opt_field params cq_limit)
             Number_toString in
  let q := set_if_defined q (js "is_active") (opt_field params cq_is_active)
             Boolean_toString in
  q.

Variable CUEY_API_BASE_URL : jsstring.
Variable fetch : jsstring -> FetchInit -> Response.
Variable getApiKey : ProcessEnv -> result jsstring.

(** [EventsResource.list(params)]. *)
Definition events_list (env : ProcessEnv)
  (params : option EventsQueryParams) : result value :=
  EventsResource.list CUEY_API_BASE_URL fetch getApiKey env
    (toString (events_queryParams params)).

(** [CronsResource.list(params)]. *)
Definition crons_list (env : ProcessEnv)
  (params : option CronsQueryParams) : result value :=
  CronsResource.list CUEY_API_BASE_URL fetch getApiKey env
    (toString (crons_queryParams params)).

End Instance.

End ListQuery.

(* ------------------------------------------------------------------ *)
(** ** The aliases of the facade ([src/client.ts]) *)

Module Facade.

Section Instance.

Variable URL_ok : jsstring -> bool.
Variable Date_parse : jsstring -> option Z.
Variable toISOString : Z -> jsstring.
Variable CUEY_API_BASE_URL : jsstring.
Variable fetch : jsstring -> FetchInit -> Response.

(** [this.events.create(input)]: [this.events] was built from [this.http]
    and [this.webhookBaseUrl]. *)
Definition schedule (this : Cuey) (now : Z) (env : ProcessEnv)
  (input : EventInput) : result value :=
  EventsResource.create URL_ok Date_parse toISOString CUEY_API_BASE_URL fetch
    (http_getApiKey this) (webhookBaseUrl this) now env input.

(** [this.crons.create(input)]. *)
Definition repeat (this : Cuey) (env : ProcessEnv) (input : CronInput)
  : result value :=
  CronsResource.create URL_ok CUEY_API_BASE_URL fetch
    (http_getApiKey this) (webhookBaseUrl this) env input.

End Instance.

End Facade.

(* ------------------------------------------------------------------ *)
(** ** The test setup ([test/setup], in [src/test/setup-bun.ts]) *)

(** [s.replace(/suffix$/, replacement)] for a literal [suffix]. *)
Fixpoint replaceSuffix (suffix replacement s : jsstring) : jsstring :=
  if str_eqb s suffix then replacement
  else
    match s with
    | [] => []
    | c :: r => c :: replaceSuffix suffix replacement r
    end.

Definition normalizeISOString (dateStr : jsstring) : jsstring :=
  if negb (truthy (VString dateStr)) then dateStr
  else replaceSuffix (js "+00:00") (js "Z") dateStr.

Module TestSetup.

Section Instance.

(** [process.env.TEST_API_KEY], read when the module is loaded. *)
Variable TEST_API_KEY : option jsstring.

Definition isTestApiKeyAvailable : bool := truthy (of_opt TEST_API_KEY).

(** [env0] is [process.env] when the client is built. *)
Definition getTestClient (env0 : ProcessEnv) : result Cuey :=
  if negb (truthy (of_opt TEST_API_KEY)) then
    Thrown (EError
      (js "TEST_API_KEY environment variable is required. "
         ++ js "Please set it in .env.local file. "
         ++ js "See README.md for testing instructions."))
  else
    Cuey_new (Some (mkConfig (Some (js "https://example.com")) TEST_API_KEY))
      env0.

Definition skipIfApiKeyUnavailable : bool := negb isTestApiKeyAvailable.

End Instance.

End TestSetup.

(* ------------------------------------------------------------------ *)
(** ** The vocabulary of the further properties *)

(** A header entry the validator lets pass: its key is not blank and its
    value is a string. *)
Definition header_ok (kv : jsstring * value) : Prop :=
  trim (fst kv) <> [] /\ exists s, snd kv = VString s.

(** The fields of a cron input that the validators read. *)
Definition same_validated_fields (i i' : CronInput) : Prop :=
  c_webhook_url i = c_webhook_url i' /\ c_method i = c_method i' /\
  c_headers i = c_headers i' /\ c_retry_config i = c_retry_config i'.

Definition sample_cron (expression : value) : CronInput :=
  mkCronInput (VString (js "https://example.com/webhook")) None expression
    VUndefined VUndefined VUndefined VUndefined VUndefined.

(** [op] runs the validation, then resolves the key, and only then
    reaches the network: an error of the validation is the error of [op],
    and with a valid input an error of the key is. *)
Definition validation_then_key {A} (validated : result A)
  (key : result jsstring) (op : result value) : Prop :=
  (forall e, validated = Thrown e -> op = Thrown e) /\
  (forall v e, validated = Returned v -> key = Thrown e -> op = Thrown e).

(** The code and the status code that each class of [src/types/errors.ts]
    gives to its instances. *)
Definition taxonomy (n : ErrorName) : jsstring * Z :=
  match n with
  | UnauthorizedError => (js "UNAUTHORIZED", 401)
  | NotFoundError => (js "NOT_FOUND", 404)
  | BadRequestError => (js "BAD_REQUEST", 400)
  | ValidationError => (js "VALIDATION_ERROR", 400)
  | InternalServerError => (js "INTERNAL_SERVER_ERROR", 500)
  end.

Definition taxonomy_ok (c : CueyError) : Prop :=
  (code c, statusCode c) = taxonomy (name c).

(** The message each branch of [handleError] falls back to. *)
Definition default_message (n : ErrorName) : jsstring :=
  match n with
  | UnauthorizedError => js "Unauthorized. Invalid or missing API key."
  | NotFoundError => js "Resource not found."
  | BadRequestError => js "Bad request"
  | ValidationError => js "Validation error"
  | InternalServerError => js "An internal server error occurred."
  end.

(** The statuses that [handleError] has a branch for. *)
Definition mapped_status (s : Z) : bool :=
  (s =? 401) || (s =? 404) || (s =? 400) || (s >=? 500).

(** [request] against a remote end that answers [response], with the key
    [key] at hand. *)
Definition request_answered (response : Response) (key : jsstring)
  : result value :=
  HttpClient.request [] (fun _ _ => response) (fun _ => Returned key) None
    [] (mkOptions None VUndefined []).

(** A 402 with a JSON error body. *)
Definition sample_402 : Response :=
  mkResponse 402 (Some (js "application/json"))
    (Parsed (VObject [(js "error",
       VObject [(js "message", VString (js "Payment required"));
                (js "details", VString (js "plan"))])])) [].

(** A 401 whose body gives a message and details. *)
Definition sample_401 : Response :=
  mkResponse 401 (Some (js "application/json"))
    (Parsed (VObject [(js "error",
       VObject [(js "message", VString (js "Invalid API key"));
                (js "details", VString (js "revoked"))])])) [].

(** The response is read as JSON: its content type holds
    [application/json]. *)
Definition is_json (response : Response) : bool :=
  match content_type response with
  | Some ct => includes ct (js "application/json")
  | None => false
  end.

(** A 400 with a plain text body. *)
Definition sample_400_text : Response :=
  mkResponse 400 (Some (js "text/plain")) (ParseFailure None)
    (js "VALIDATION_ERROR: scheduled_at is in the past").

(** A 204 that announces JSON and has no body to parse. *)
Definition sample_204_empty : Response :=
  mkResponse 204 (Some (js "application/json; charset=utf-8"))
    (ParseFailure (Some (js "Unexpected end of JSON input"))) [].

(** A 200 whose JSON body has no [data]. *)
Definition sample_200_no_data : Response :=
  mkResponse 200 (Some (js "application/json"))
    (Parsed (VObject [(js "event", VObject [])])) [].

(** The headers of every request of [get], [post], [put] and [delete]. *)
Definition bearer_headers (key : jsstring) : list (jsstring * jsstring) :=
  [(js "Content-Type", js "application/json");
   (js "Authorization", js "Bearer " ++ key)].

(** The body that [post] and [put] send: none for [undefined]. *)
Definition sent_body (body : value) : option value :=
  match body with
  | VUndefined => None
  | b => Some b
  end.

Fixpoint headers_eqb (a b : list (jsstring * jsstring)) : bool :=
  match a, b with
  | [], [] => true
  | (k, v) :: a', (k', v') :: b' =>
      str_eqb k k' && str_eqb v v' && headers_eqb a' b'
  | _, _ => false
  end.

(** A remote end that answers nothing but the one [GET] of the events
    with the key [secret]; every other request gets a 500. *)
Definition strict_fetch (url : jsstring) (init : FetchInit) : Response :=
  if str_eqb url (js "https://api.example/api/v1/events")
     && str_eqb (init_method init) (js "GET")
     && headers_eqb (init_headers init) (bearer_headers (js "secret"))
     && match init_body init with
        | None => true
        | Some _ => false
        end
  then sample_fetch url init
  else mkResponse 500 None (ParseFailure None) [].

(** The pairs of the names whose value is defined, in the order given. *)
Definition defined_pairs (l : list (jsstring * option jsstring))
  : URLSearchParams :=
  flat_map (fun kv => match snd kv with
                      | Some v => [(fst kv, v)]
                      | None => []
                      end) l.

(** Stand-ins for the two platform renderings, used where an example
    needs them: integers in decimal, and values left as they are. *)
Definition sample_Number_toString (n : number) : jsstring :=
  match n with
  | Finite q => Z_to_js (Qnum q / Zpos (Qden q))
  | NaN => js "NaN"
  | PosInfinity => js "Infinity"
  | NegInfinity => js "-Infinity"
  end.

(* ------------------------------------------------------------------ *)
(** * Properties *)

(** ** Strings *)

Lemma str_eqb_eq (a b : jsstring) : str_eqb a b = true <-> a = b.
Proof.
  revert b; induction a as [|x a IH]; intros [|y b]; simpl;
    try (split; [discriminate | discriminate]); try tauto.
  rewrite andb_true_iff, N.eqb_eq, IH.
  split; [intros [-> ->]; reflexivity | intros H; inversion H; auto].
Qed.

Lemma str_eqb_refl (a : jsstring) : str_eqb a a = true.
Proof. apply str_eqb_eq; reflexivity. Qed.

Lemma str_eqb_neq (a b : jsstring) : str_eqb a b = false <-> a <> b.
Proof.
  rewrite <- str_eqb_eq. destruct (str_eqb a b); split; congruence.
Qed.

Lemma str_eqb_nil (a : jsstring) : str_eqb a [] = true <-> a = [].
Proof. apply str_eqb_eq. Qed.

Lemma startsWith_app (p s : jsstring) : startsWith (p ++ s) p = true.
Proof.
  induction p as [|x p IH]; simpl; [reflexivity|].
  now rewrite N.eqb_refl, IH.
Qed.

Lemma startsWith_inv (s p : jsstring) :
  startsWith s p = true -> exists r, s = p ++ r.
Proof.
  revert s; induction p as [|x p IH]; intros s H; simpl in *.
  - now exists s.
  - destruct s as [|y s]; [discriminate|].
    apply andb_true_iff in H as [Hx Hp]. apply N.eqb_eq in Hx; subst y.
    destruct (IH _ Hp) as [r ->]. now exists r.
Qed.

Lemma trimStart_startsWith (s p : jsstring) :
  p <> [] -> no_space p = true -> startsWith s p = true -> trimStart s = s.
Proof.
  destruct p as [|x p]; [congruence|]. intros _ Hp H.
  destruct s as [|y s]; [discriminate|]. simpl in *.
  apply andb_true_iff in H as [Hx _]. apply N.eqb_eq in Hx; subst y.
  apply andb_true_iff in Hp as [Hx _].
  now destruct (isWhiteSpace x).
Qed.

Lemma trimEnd_startsWith (s p : jsstring) :
  no_space p = true -> startsWith s p = true ->
  startsWith (trimEnd s) p = true.
Proof.
  revert s; induction p as [|x p IH]; intros s Hp H; [reflexivity|].
  destruct s as [|y s]; [discriminate|]. simpl in Hp, H.
  apply andb_true_iff in H as [Hx Hs]. apply andb_true_iff in Hp as [Hw Hp].
  pose proof (IH _ Hp Hs) as IH'.
  apply N.eqb_eq in Hx; subst y. simpl.
  destruct (trimEnd s) as [|z r] eqn:E.
  - destruct p; [|discriminate].
    destruct (isWhiteSpace x); [discriminate|].
    simpl. now rewrite N.eqb_refl.
  - simpl. now rewrite N.eqb_refl.
Qed.

(** A prefix free of white space survives [trim]. *)
Lemma trim_startsWith (s p : jsstring) :
  p <> [] -> no_space p = true -> startsWith s p = true ->
  startsWith (trim s) p = true.
Proof.
  intros Hn Hp H. unfold trim.
  rewrite (trimStart_startsWith s p Hn Hp H).
  now apply trimEnd_startsWith.
Qed.

Lemma trim_nil : trim [] = [].
Proof. reflexivity. Qed.

Lemma startsWith_nil (p : jsstring) : p <> [] -> startsWith [] p = false.
Proof. destruct p; [congruence | reflexivity]. Qed.

(** A path is not an absolute URL: the first code units differ. *)
Lemma slash_not_absolute (t : jsstring) :
  startsWith t (js "/") = true ->
  startsWith t (js "http://") || startsWith t (js "https://") = false.
Proof.
  destruct t as [|c t]; [discriminate|].
  intros H. change (js "/") with [47%N] in H. cbn [startsWith] in H.
  apply andb_true_iff in H as [H _]. apply N.eqb_eq in H.
  change (js "http://") with (104%N :: js "ttp://").
  change (js "https://") with (104%N :: js "ttps://").
  cbn [startsWith]. rewrite <- H. reflexivity.
Qed.

(** ** The webhook URL validator *)

Lemma absolute_nonempty (s : jsstring) :
  startsWith s (js "http://") || startsWith s (js "https://") = true ->
  s <> [].
Proof. intros H ->. discriminate. Qed.

Lemma absolute_trim (s : jsstring) :
  startsWith s (js "http://") || startsWith s (js "https://") = true ->
  startsWith (trim s) (js "http://") || startsWith (trim s) (js "https://")
  = true.
Proof.
  intros H. apply orb_true_iff in H. apply orb_true_iff.
  destruct H as [H|H]; [left|right];
    (apply trim_startsWith; [discriminate | reflexivity | exact H]).
Qed.

(** The validator on a non-empty string: the guard is passed and the rest
    of the body runs on the trimmed string. *)
Lemma validate_nonempty_string URL_ok base (s : jsstring) :
  s <> [] ->
  validateAndNormalizeWebhookUrl URL_ok base (VString s) =
  let trimmed := trim s in
  if startsWith trimmed (js "http://") || startsWith trimmed (js "https://")
  then
    if URL_ok trimmed then Returned trimmed
    else
      throwValidation
        (js "Invalid webhook URL: " ++ dquote ++ trimmed ++ dquote
           ++ js " is not a valid URL")
        (field_value (js "webhook_url") (VString trimmed))
  else if startsWith trimmed (js "/") then
    match base with
    | None | Some [] =>
        throwValidation
          (js "Relative webhook URL provided but no baseUrl is configured. "
             ++ js "Either provide a full URL (starting with http:// or https://) "
             ++ js "or configure baseUrl in CueyConfig or set CUEY_BASE_URL environment variable.")
          (field_value_baseUrl base (js "webhook_url") (VString trimmed))
    | Some b =>
        if URL_ok (stripTrailingSlash b ++ trimmed)
        then Returned (stripTrailingSlash b ++ trimmed)
        else
          throwValidation
            (js "Invalid webhook URL: Cannot combine baseUrl " ++ dquote
               ++ b ++ dquote ++ js " with path " ++ dquote
               ++ trimmed ++ dquote)
            (field_value_baseUrl base (js "webhook_url") (VString trimmed))
    end
  else
    throwValidation
      (js "Invalid webhook URL: " ++ dquote ++ trimmed ++ dquote
         ++ js " must be a full URL (starting with http:// or https://) or a relative path (starting with /)")
      (field_value (js "webhook_url") (VString trimmed)).
Proof.
  intros Hs. destruct s as [|c s]; [congruence|]. reflexivity.
Qed.

(** Whatever the input, a throw of the validator is a [ValidationError]. *)
Lemma validate_throws_only_ValidationError URL_ok base v e :
  validateAndNormalizeWebhookUrl URL_ok base v = Thrown e ->
  exists m d, e = ECuey (newValidationError m d).
Proof.
  unfold validateAndNormalizeWebhookUrl, throwValidation.
  repeat match goal with
         | |- context [if ?b then _ else _] => destruct b
         | |- context [match ?x with _ => _ end] => destruct x
         end;
    intros H; inversion H; eauto.
Qed.

(** C2, as stated, fails.  The input starts with [https://] and ends with
    a space; the platform's parser accepts it (it strips the space), yet
    under every parser the validator does not return the input: it returns
    the trimmed string or throws. *)
Lemma C2_counterexample :
  let s := js "https://example.com/webhook " in
  startsWith s (js "https://") = true /\
  forall URL_ok base,
    validateAndNormalizeWebhookUrl URL_ok base (VString s) <> Returned s.
Proof.
  split; [reflexivity|]. intros URL_ok base.
  rewrite validate_nonempty_string by discriminate.
  change (trim (js "https://example.com/webhook "))
    with (js "https://example.com/webhook").
  cbv zeta.
  change (startsWith (js "https://example.com/webhook") (js "http://")
          || startsWith (js "https://example.com/webhook") (js "https://"))
    with true.
  cbv iota. destruct (URL_ok _); [|discriminate].
  intros H. inversion H.
Qed.

(** C2, amended: for every input string that starts with [http://] or
    [https://] and whose trimmed form parses as a URL, the validator returns
    the input with surrounding white space trimmed; it is the identity on
    the inputs that [trim] leaves unchanged. *)
Theorem C2_absolute_url_returned_trimmed
  (URL_ok : jsstring -> bool) (base : option jsstring) (s : jsstring) :
  startsWith s (js "http://") || startsWith s (js "https://") = true ->
  URL_ok (trim s) = true ->
  validateAndNormalizeWebhookUrl URL_ok base (VString s) = Returned (trim s)
  /\ (trim s = s ->
      validateAndNormalizeWebhookUrl URL_ok base (VString s) = Returned s).
Proof.
  intros Hp Hu.
  assert (E : validateAndNormalizeWebhookUrl URL_ok base (VString s)
              = Returned (trim s)).
  { rewrite validate_nonempty_string by now apply absolute_nonempty.
    cbv zeta. now rewrite (absolute_trim s Hp), Hu. }
  split; [exact E|]. intros Ht. now rewrite E, Ht.
Qed.

Lemma C2_witness :
  validateAndNormalizeWebhookUrl sample_URL_ok None
    (VString (js "http://example.com/webhook"))
  = Returned (js "http://example.com/webhook").
Proof.
  exact (proj2 (C2_absolute_url_returned_trimmed sample_URL_ok None
                  (js "http://example.com/webhook") eq_refl eq_refl)
               eq_refl).
Defined.

(** C3, as stated, fails in two ways.  A path that ends with white space
    is trimmed before it is appended, so the value returned is never
    [strip b ++ p]; and the concatenation need not parse: where the parser
    rejects it the validator throws. *)
Lemma C3_counterexample :
  (let p := js "/webhook " in
   let b := js "https://example.com" in
   startsWith p (js "/") = true /\
   forall URL_ok,
     validateAndNormalizeWebhookUrl URL_ok (Some b) (VString p)
     <> Returned (stripTrailingSlash b ++ p))
  /\
  (let p := js "/webhook" in
   let b := js "not a url" in
   startsWith p (js "/") = true /\
   forall URL_ok,
     URL_ok (stripTrailingSlash b ++ p) = false ->
     isThrown (validateAndNormalizeWebhookUrl URL_ok (Some b) (VString p))
     = true).
Proof.
  split; (split; [reflexivity|]); intros URL_ok.
  - rewrite validate_nonempty_string by discriminate.
    change (trim (js "/webhook ")) with (js "/webhook"). cbv zeta.
    change (startsWith (js "/webhook") (js "http://")
            || startsWith (js "/webhook") (js "https://")) with false.
    change (startsWith (js "/webhook") (js "/")) with true.
    cbv iota.
    change (stripTrailingSlash (js "https://example.com"))
      with (js "https://example.com").
    change (js "https://example.com") with (104%N :: js "ttps://example.com").
    cbv iota. destruct (URL_ok _); [|discriminate].
    intros H. inversion H.
  - intros Hu.
    rewrite validate_nonempty_string by discriminate.
    change (trim (js "/webhook")) with (js "/webhook"). cbv zeta.
    change (startsWith (js "/webhook") (js "http://")
            || startsWith (js "/webhook") (js "https://")) with false.
    change (startsWith (js "/webhook") (js "/")) with true.
    change (js "not a url") with (110%N :: js "ot a url") in *.
    cbv iota. now rewrite Hu.
Qed.

(** C3, amended: for every webhook path [p] starting with [/] and every
    non-empty configured base URL [b], the validator returns the
    concatenation of [b], its single trailing slash stripped, with the
    trimmed [p] exactly when that concatenation parses as a URL, and throws
    a [ValidationError] when it does not; so a value it returns parses. *)
Theorem C3_relative_path_resolved
  (URL_ok : jsstring -> bool) (b p : jsstring) :
  startsWith p (js "/") = true ->
  b <> [] ->
  let u := stripTrailingSlash b ++ trim p in
  let r := validateAndNormalizeWebhookUrl URL_ok (Some b) (VString p) in
  (URL_ok u = true -> r = Returned u) /\
  (URL_ok u = false -> isValidationError r) /\
  (forall x, r = Returned x -> x = u /\ URL_ok x = true).
Proof.
  intros Hp Hb u r.
  assert (Ht : startsWith (trim p) (js "/") = true)
    by (apply trim_startsWith; [discriminate | reflexivity | exact Hp]).
  assert (E : r = if URL_ok u then Returned u
                  else throwValidation
                         (js "Invalid webhook URL: Cannot combine baseUrl "
                            ++ dquote ++ b ++ dquote ++ js " with path "
                            ++ dquote ++ trim p ++ dquote)
                         (field_value_baseUrl (Some b) (js "webhook_url")
                            (VString (trim p)))).
  { subst r. rewrite validate_nonempty_string by (intros ->; discriminate).
    cbv zeta. rewrite (slash_not_absolute _ Ht), Ht.
    destruct b; [congruence | reflexivity]. }
  rewrite E. destruct (URL_ok u) eqn:Hu; (split; [|split]).
  - reflexivity.
  - discriminate.
  - intros x H. inversion H; subst x. now split.
  - discriminate.
  - intros _. unfold isValidationError; eauto.
  - discriminate.
Qed.

Lemma C3_witness :
  validateAndNormalizeWebhookUrl sample_URL_ok
    (Some (js "https://example.com/")) (VString (js "/webhook"))
  = Returned (js "https://example.com/webhook").
Proof.
  refine (proj1 (C3_relative_path_resolved sample_URL_ok
                   (js "https://example.com/") (js "/webhook") eq_refl _)
                eq_refl).
  discriminate.
Defined.

(** C4, as stated, fails: the input below starts with a space, so it starts
    neither with a scheme nor with a slash, and the validator returns its
    trimmed form as soon as the parser accepts that absolute URL. *)
Lemma C4_counterexample :
  let s := js " https://example.com/webhook" in
  startsWith s (js "http://") = false /\
  startsWith s (js "https://") = false /\
  startsWith s (js "/") = false /\
  forall URL_ok base,
    URL_ok (js "https://example.com/webhook") = true ->
    validateAndNormalizeWebhookUrl URL_ok base (VString s)
    = Returned (js "https://example.com/webhook").
Proof.
  repeat (split; [reflexivity|]). intros URL_ok base Hu.
  rewrite validate_nonempty_string by discriminate.
  change (trim (js " https://example.com/webhook"))
    with (js "https://example.com/webhook").
  cbv zeta.
  change (startsWith (js "https://example.com/webhook") (js "http://")
          || startsWith (js "https://example.com/webhook") (js "https://"))
    with true.
  cbv iota. now rewrite Hu.
Qed.

Lemma validate_not_string URL_ok base v :
  (forall s, v <> VString s) ->
  isThrown (validateAndNormalizeWebhookUrl URL_ok base v) = true.
Proof.
  intros H. destruct v; try reflexivity.
  - unfold validateAndNormalizeWebhookUrl.
    destruct (negb (truthy (VBool b)) || _); reflexivity.
  - unfold validateAndNormalizeWebhookUrl.
    destruct (negb (truthy (VNumber n)) || _); reflexivity.
  - now contradiction (H s).
Qed.

(** C4, amended: the validator throws, and then a [ValidationError], in
    exactly these cases: the input is empty or not a string; the trimmed
    input starts neither with [http://] or [https://] nor with [/]; the
    trimmed input starts with [/] and no base URL is configured, whatever
    the path; or the trimmed absolute URL, or the resolved one, fails to
    parse.  In every other case it returns a value. *)
Theorem C4_rejected_exactly
  (URL_ok : jsstring -> bool) (base : option jsstring) (v : value) :
  (isThrown (validateAndNormalizeWebhookUrl URL_ok base v) = true
   <-> rejected URL_ok base v)
  /\ (forall e,
        validateAndNormalizeWebhookUrl URL_ok base v = Thrown e ->
        exists m d, e = ECuey (newValidationError m d)).
Proof.
  split; [|intros e; apply validate_throws_only_ValidationError].
  split.
  - intros H. destruct v;
      try (apply rej_not_string; intros s'; discriminate).
    destruct s as [|c s]; [apply rej_empty|].
    rewrite validate_nonempty_string in H by discriminate.
    cbv zeta in H. fold (absolute (trim (c :: s))) in H.
    destruct (absolute (trim (c :: s))) eqn:Ha.
    + destruct (URL_ok (trim (c :: s))) eqn:Hu; [discriminate|].
      now apply rej_unparsable_absolute.
    + destruct (startsWith (trim (c :: s)) (js "/")) eqn:Hs;
        [|now apply rej_shape].
      destruct base as [[|x b]|].
      * apply rej_no_base; auto.
      * destruct (URL_ok (stripTrailingSlash (x :: b) ++ trim (c :: s)))
          eqn:Hu; [discriminate|].
        now apply rej_unparsable_resolved with (b := x :: b).
      * apply rej_no_base; auto.
  - intros H. destruct H as [v Hv| |s Ha Hs|s Hs Hb|s Ha Hu|s b Hs Hb Hu].
    + now apply validate_not_string.
    + reflexivity.
    + destruct s as [|c s]; [reflexivity|].
      rewrite validate_nonempty_string by discriminate.
      cbv zeta. fold (absolute (trim (c :: s))). now rewrite Ha, Hs.
    + destruct s as [|c s]; [reflexivity|].
      rewrite validate_nonempty_string by discriminate.
      cbv zeta. rewrite (slash_not_absolute _ Hs), Hs.
      destruct Hb as [-> | ->]; reflexivity.
    + destruct s as [|c s]; [reflexivity|].
      rewrite validate_nonempty_string by discriminate.
      cbv zeta. fold (absolute (trim (c :: s))). now rewrite Ha, Hu.
    + destruct s as [|c s]; [reflexivity|].
      rewrite validate_nonempty_string by discriminate.
      cbv zeta. rewrite (slash_not_absolute _ Hs), Hs. subst base.
      destruct b; [reflexivity|]. now rewrite Hu.
Qed.

(** The rejected shapes that the tests of the repository exercise. *)
Example rejected_shapes URL_ok base :
  isValidationError
    (validateAndNormalizeWebhookUrl URL_ok base (VString (js "not-a-url")))
  /\ isValidationError
       (validateAndNormalizeWebhookUrl URL_ok base
          (VString (js "example.com/webhook")))
  /\ isValidationError
       (validateAndNormalizeWebhookUrl URL_ok base (VString []))
  /\ isValidationError
       (validateAndNormalizeWebhookUrl URL_ok None (VString (js "/webhook"))).
Proof. repeat split; validation_error. Qed.

(** ** The retry configuration validator *)

Lemma isInteger_iff (q : Q) :
  isInteger (Finite q) = true <-> exists z, (q == inject_Z z)%Q.
Proof.
  unfold isInteger. rewrite Z.eqb_eq. split.
  - intros H. exists (Qnum q / Zpos (Qden q)).
    unfold Qeq; simpl. rewrite Z.mul_1_r.
    pose proof (Z.div_mod (Qnum q) (Zpos (Qden q))) as D.
    rewrite H in D. lia.
  - intros [z Hz]. unfold Qeq in Hz; simpl in Hz. rewrite Z.mul_1_r in Hz.
    rewrite Hz. apply Z.mod_mul. discriminate.
Qed.

Lemma bad_int_range_false (lo hi : Z) (v : value) :
  bad_int_range v lo hi = false <-> integer_in lo hi v.
Proof.
  unfold integer_in. split.
  - destruct v as [| | |n| | |]; try discriminate.
    cbn [bad_int_range]. intros H.
    apply orb_false_iff in H as [H Hi]. apply orb_false_iff in H as [Hl Hh].
    apply negb_false_iff in Hi.
    destruct n as [q| | |]; try discriminate.
    apply isInteger_iff in Hi as [z Hz].
    cbn [num_lt num_gt] in Hl, Hh.
    apply negb_false_iff, Qle_bool_iff in Hl, Hh.
    rewrite Hz in Hl, Hh. rewrite <- Zle_Qle in Hl, Hh.
    exists q, z. auto.
  - intros (q & z & -> & Hz & Hlo & Hhi). cbn [bad_int_range num_lt num_gt].
    assert (Hl : Qle_bool (inject_Z lo) q = true)
      by (apply Qle_bool_iff; rewrite Hz, <- Zle_Qle; exact Hlo).
    assert (Hh : Qle_bool q (inject_Z hi) = true)
      by (apply Qle_bool_iff; rewrite Hz, <- Zle_Qle; exact Hhi).
    assert (Hi : isInteger (Finite q) = true)
      by (apply isInteger_iff; now exists z).
    now rewrite Hl, Hh, Hi.
Qed.

Lemma bad_backoffType_false (v : value) :
  bad_backoffType v = false <-> backoffType_ok v.
Proof.
  unfold backoffType_ok. split.
  - destruct v; try discriminate. cbn [bad_backoffType]. intros H.
    apply andb_false_iff in H as [H|H]; apply negb_false_iff, str_eqb_eq in H;
      subst; auto.
  - intros [-> | ->]; reflexivity.
Qed.

Lemma field_check_false (bad : value -> bool) (P : value -> Prop) v :
  (bad v = false <-> P v) ->
  (defined v && bad v = false <-> absent_or P v).
Proof.
  intros H. unfold absent_or. rewrite andb_false_iff, H. split.
  - intros [Hd|Hp]; [left; now destruct v | now right].
  - intros [->|Hp]; [now left | now right].
Qed.

Lemma field_check_true (bad : value -> bool) (P : value -> Prop) v :
  (bad v = false <-> P v) ->
  (defined v && bad v = true <-> ~ absent_or P v).
Proof.
  intros H. rewrite <- (field_check_false bad P v H).
  destruct (defined v && bad v); split; congruence.
Qed.

(** The validator on an object, by the three field checks in order. *)
Lemma validateRetryConfig_object (props : list (jsstring * value)) :
  validateRetryConfig (VObject props) =
  let maxRetries := lookup (js "maxRetries") props in
  let backoffMs := lookup (js "backoffMs") props in
  let backoffType := lookup (js "backoffType") props in
  if defined maxRetries && bad_int_range maxRetries 1 10 then
    throwValidation maxRetries_message
      (field_value (js "retry_config.maxRetries") maxRetries)
  else if defined backoffMs && bad_int_range backoffMs 100 5000 then
    throwValidation backoffMs_message
      (field_value (js "retry_config.backoffMs") backoffMs)
  else if defined backoffType && bad_backoffType backoffType then
    throwValidation backoffType_message
      (field_value (js "retry_config.backoffType") backoffType)
  else Returned tt.
Proof. reflexivity. Qed.

Lemma integer_in_num (lo hi z : Z) : lo <= z <= hi -> integer_in lo hi (num z).
Proof. intros H. exists (inject_Z z), z. repeat split; try easy; lia. Qed.

(** C5: [null] and [undefined] are accepted with no further check.  On an
    object each of the three fields is checked only when it is present:
    [maxRetries] must be an integer in [1,10], [backoffMs] an integer in
    [100,5000], [backoffType] one of the two strings; the object is accepted
    exactly when every present field is valid, so an omitted field is never
    the reason of a rejection, and the first violation, in that order of
    fields, throws a [ValidationError] whose details name the field and
    hold the rejected value.  The listed examples fail and every in-bounds
    combination passes. *)
Theorem C5_validateRetryConfig :
  validateRetryConfig VNull = Returned tt /\
  validateRetryConfig VUndefined = Returned tt /\
  (forall props,
     let maxRetries := lookup (js "maxRetries") props in
     let backoffMs := lookup (js "backoffMs") props in
     let backoffType := lookup (js "backoffType") props in
     let ok1 := absent_or (integer_in 1 10) maxRetries in
     let ok2 := absent_or (integer_in 100 5000) backoffMs in
     let ok3 := absent_or backoffType_ok backoffType in
     let r := validateRetryConfig (VObject props) in
     (r = Returned tt <-> ok1 /\ ok2 /\ ok3) /\
     (~ ok1 ->
      r = throwValidation maxRetries_message
            (field_value (js "retry_config.maxRetries") maxRetries)) /\
     (ok1 -> ~ ok2 ->
      r = throwValidation backoffMs_message
            (field_value (js "retry_config.backoffMs") backoffMs)) /\
     (ok1 -> ok2 -> ~ ok3 ->
      r = throwValidation backoffType_message
            (field_value (js "retry_config.backoffType") backoffType))) /\
  validateRetryConfig (VObject [(js "maxRetries", num 0)])
  = throwValidation maxRetries_message
      (field_value (js "retry_config.maxRetries") (num 0)) /\
  validateRetryConfig (VObject [(js "maxRetries", num 11)])
  = throwValidation maxRetries_message
      (field_value (js "retry_config.maxRetries") (num 11)) /\
  validateRetryConfig (VObject [(js "maxRetries", VNumber (Finite (11 # 2)))])
  = throwValidation maxRetries_message
      (field_value (js "retry_config.maxRetries")
         (VNumber (Finite (11 # 2)))) /\
  validateRetryConfig (VObject [(js "backoffMs", num 99)])
  = throwValidation backoffMs_message
      (field_value (js "retry_config.backoffMs") (num 99)) /\
  validateRetryConfig (VObject [(js "backoffMs", num 5001)])
  = throwValidation backoffMs_message
      (field_value (js "retry_config.backoffMs") (num 5001)) /\
  validateRetryConfig (VObject [(js "backoffType", VString (js "invalid"))])
  = throwValidation backoffType_message
      (field_value (js "retry_config.backoffType") (VString (js "invalid"))) /\
  (forall m b t,
     1 <= m <= 10 -> 100 <= b <= 5000 -> backoffType_ok t ->
     validateRetryConfig (retry_object (num m) (num b) t) = Returned tt
     /\ validateRetryConfig (VObject [(js "maxRetries", num m)]) = Returned tt
     /\ validateRetryConfig (VObject [(js "backoffMs", num b)]) = Returned tt
     /\ validateRetryConfig (VObject [(js "backoffType", t)]) = Returned tt).
Proof.
  assert (Hobj : forall props,
     let maxRetries := lookup (js "maxRetries") props in
     let backoffMs := lookup (js "backoffMs") props in
     let backoffType := lookup (js "backoffType") props in
     let ok1 := absent_or (integer_in 1 10) maxRetries in
     let ok2 := absent_or (integer_in 100 5000) backoffMs in
     let ok3 := absent_or backoffType_ok backoffType in
     let r := validateRetryConfig (VObject props) in
     (r = Returned tt <-> ok1 /\ ok2 /\ ok3) /\
     (~ ok1 ->
      r = throwValidation maxRetries_message
            (field_value (js "retry_config.maxRetries") maxRetries)) /\
     (ok1 -> ~ ok2 ->
      r = throwValidation backoffMs_message
            (field_value (js "retry_config.backoffMs") backoffMs)) /\
     (ok1 -> ok2 -> ~ ok3 ->
      r = throwValidation backoffType_message
            (field_value (js "retry_config.backoffType") backoffType))).
  { intros props maxRetries backoffMs backoffType ok1 ok2 ok3 r.
    subst r. rewrite validateRetryConfig_object. cbv zeta.
    fold maxRetries backoffMs backoffType.
    pose proof (field_check_false (fun v => bad_int_range v 1 10) _
                  maxRetries (bad_int_range_false 1 10 maxRetries)) as F1.
    pose proof (field_check_false (fun v => bad_int_range v 100 5000) _
                  backoffMs (bad_int_range_false 100 5000 backoffMs)) as F2.
    pose proof (field_check_false bad_backoffType _
                  backoffType (bad_backoffType_false backoffType)) as F3.
    fold ok1 in F1. fold ok2 in F2. fold ok3 in F3. cbv beta in F1, F2.
    destruct (defined maxRetries && bad_int_range maxRetries 1 10);
      [|destruct (defined backoffMs && bad_int_range backoffMs 100 5000);
        [|destruct (defined backoffType && bad_backoffType backoffType)]].
    - assert (~ ok1) by (intros K; apply F1 in K; discriminate).
      repeat split; try tauto; try discriminate.
    - assert (ok1) by now apply F1.
      assert (~ ok2) by (intros K; apply F2 in K; discriminate).
      repeat split; try tauto; try discriminate.
    - assert (ok1) by now apply F1. assert (ok2) by now apply F2.
      assert (~ ok3) by (intros K; apply F3 in K; discriminate).
      repeat split; try tauto; try discriminate.
    - assert (ok1) by now apply F1. assert (ok2) by now apply F2.
      assert (ok3) by now apply F3.
      repeat split; try tauto. }
  repeat (split; [first [reflexivity | exact Hobj]|]).
  intros m b t Hm Hb Ht.
  assert (O1 : absent_or (integer_in 1 10) (num m))
    by (right; now apply integer_in_num).
  assert (O2 : absent_or (integer_in 100 5000) (num b))
    by (right; now apply integer_in_num).
  assert (O3 : absent_or backoffType_ok t) by now right.
  assert (U : forall P, absent_or P VUndefined) by (intros P; now left).
  repeat split.
  - apply (proj1 (Hobj _)). cbv zeta.
    change (lookup (js "maxRetries") _) with (num m).
    change (lookup (js "backoffMs") _) with (num b).
    change (lookup (js "backoffType") _) with t. auto.
  - apply (proj1 (Hobj _)). cbv zeta.
    change (lookup (js "maxRetries") _) with (num m).
    change (lookup (js "backoffMs") _) with VUndefined.
    change (lookup (js "backoffType") _) with VUndefined. auto.
  - apply (proj1 (Hobj _)). cbv zeta.
    change (lookup (js "maxRetries") _) with VUndefined.
    change (lookup (js "backoffMs") _) with (num b).
    change (lookup (js "backoffType") _) with VUndefined. auto.
  - apply (proj1 (Hobj _)). cbv zeta.
    change (lookup (js "maxRetries") _) with VUndefined.
    change (lookup (js "backoffMs") _) with VUndefined.
    change (lookup (js "backoffType") _) with t. auto.
Qed.

(** ** The scheduled time validator *)

Lemma validateScheduledAt_not_string Date_parse toISOString now v :
  (forall s, v <> VString s) \/ v = VString [] ->
  validateScheduledAt Date_parse toISOString now v
  = throwValidation (js "scheduled_at is required and must be a string")
      (field_value (js "scheduled_at") v).
Proof.
  intros [H| ->]; [|reflexivity].
  destruct v; try reflexivity.
  - unfold validateScheduledAt.
    destruct (negb (truthy (VBool b)) || _); reflexivity.
  - unfold validateScheduledAt.
    destruct (negb (truthy (VNumber n)) || _); reflexivity.
  - now contradiction (H s).
Qed.

(** The validator on a non-empty string. *)
Lemma validateScheduledAt_string Date_parse toISOString now (s : jsstring) :
  s <> [] ->
  validateScheduledAt Date_parse toISOString now (VString s) =
  let trimmed := trim s in
  if str_eqb trimmed [] then
    throwValidation (js "scheduled_at cannot be empty")
      (field_value (js "scheduled_at") (VString s))
  else
    match Date_parse trimmed with
    | None =>
        throwValidation
          (js "Invalid scheduled_at: " ++ dquote ++ trimmed ++ dquote
             ++ js " is not a valid date")
          (field_value (js "scheduled_at") (VString trimmed))
    | Some date =>
        if date <=? now then
          throwValidation (past_message trimmed)
            (past_details trimmed (toISOString now))
        else Returned tt
    end.
Proof. destruct s; [congruence | reflexivity]. Qed.

(** C6, as stated, fails in what the past-or-now failure carries: for an
    input with surrounding white space the [value] of the details is the
    trimmed string, not the raw input. *)
Lemma C6_counterexample :
  let raw := js " 2020-01-01T00:00:00.000Z" in
  let trimmed := js "2020-01-01T00:00:00.000Z" in
  VString trimmed <> VString raw /\
  forall Date_parse toISOString now date,
    Date_parse trimmed = Some date -> date <= now ->
    exists m d,
      validateScheduledAt Date_parse toISOString now (VString raw)
      = throwValidation m d
      /\ lookup (js "value") match d with VObject p => p | _ => [] end
         = VString trimmed.
Proof.
  split; [discriminate|].
  intros Date_parse toISOString now date Hd Hle.
  rewrite validateScheduledAt_string by discriminate.
  change (trim (js " 2020-01-01T00:00:00.000Z"))
    with (js "2020-01-01T00:00:00.000Z").
  cbv zeta. rewrite Hd.
  change (str_eqb (js "2020-01-01T00:00:00.000Z") []) with false. cbv iota.
  apply Z.leb_le in Hle. rewrite Hle.
  eexists _, _. split; reflexivity.
Qed.

(** C6, amended: the validator throws a [ValidationError] for an input
    that is empty or not a string, blank after trimming, not parseable as a
    valid instant, or an instant equal to or earlier than the current
    instant (equality is rejected); every instant strictly later passes.
    The past-or-now failure carries the field name, the offending value
    after trimming, and the current instant used for the comparison. *)
Theorem C6_validateScheduledAt
  (Date_parse : jsstring -> option Z) (toISOString : Z -> jsstring)
  (now : Z) (v : value) :
  let r := validateScheduledAt Date_parse toISOString now v in
  ((forall s, v <> VString s) \/ v = VString [] -> isValidationError r) /\
  (forall s, v = VString s -> trim s = [] -> isValidationError r) /\
  (forall s, v = VString s -> trim s <> [] -> Date_parse (trim s) = None ->
     isValidationError r) /\
  (forall s date,
     v = VString s -> trim s <> [] -> Date_parse (trim s) = Some date ->
     date <= now ->
     r = throwValidation (past_message (trim s))
           (past_details (trim s) (toISOString now))) /\
  (forall s date,
     v = VString s -> trim s <> [] -> Date_parse (trim s) = Some date ->
     now < date ->
     r = Returned tt).
Proof.
  intros r; subst r. repeat split.
  - intros H. rewrite validateScheduledAt_not_string by exact H.
    validation_error.
  - intros s -> Ht. destruct s as [|c s].
    + validation_error.
    + rewrite validateScheduledAt_string by discriminate.
      cbv zeta. rewrite Ht. validation_error.
  - intros s -> Ht Hd.
    rewrite validateScheduledAt_string by (intros ->; now apply Ht).
    cbv zeta. apply str_eqb_neq in Ht. rewrite Ht, Hd.
    validation_error.
  - intros s date -> Ht Hd Hle.
    rewrite validateScheduledAt_string by (intros ->; now apply Ht).
    cbv zeta. apply str_eqb_neq in Ht. rewrite Ht, Hd.
    apply Z.leb_le in Hle. now rewrite Hle.
  - intros s date -> Ht Hd Hlt.
    rewrite validateScheduledAt_string by (intros ->; now apply Ht).
    cbv zeta. apply str_eqb_neq in Ht. rewrite Ht, Hd.
    apply Z.leb_gt in Hlt. now rewrite Hlt.
Qed.

(** With the clock at the instant itself the timestamp is rejected, and
    one millisecond earlier it passes. *)
Lemma C6_witness :
  validateScheduledAt sample_Date_parse (fun _ => js "now") 1893456000000
    (VString (js "2030-01-01T00:00:00.000Z"))
  = throwValidation (past_message (js "2030-01-01T00:00:00.000Z"))
      (past_details (js "2030-01-01T00:00:00.000Z") (js "now"))
  /\
  validateScheduledAt sample_Date_parse (fun _ => js "now") 1893455999999
    (VString (js "2030-01-01T00:00:00.000Z"))
  = Returned tt.
Proof.
  split.
  - refine (proj1 (proj2 (proj2 (proj2
      (C6_validateScheduledAt sample_Date_parse (fun _ => js "now")
         1893456000000 (VString (js "2030-01-01T00:00:00.000Z"))))))
      (js "2030-01-01T00:00:00.000Z") 1893456000000 eq_refl _ eq_refl _).
    + discriminate.
    + apply Z.le_refl.
  - refine (proj2 (proj2 (proj2 (proj2
      (C6_validateScheduledAt sample_Date_parse (fun _ => js "now")
         1893455999999 (VString (js "2030-01-01T00:00:00.000Z"))))))
      (js "2030-01-01T00:00:00.000Z") 1893456000000 eq_refl _ eq_refl _).
    + discriminate.
    + reflexivity.
Defined.

(** ** The method validator and the resource clients *)

Lemma allowed_method_In (m : jsstring) :
  allowed_method m = true <-> In m ALLOWED_HTTP_METHODS.
Proof.
  unfold allowed_method. rewrite existsb_exists. split.
  - intros (x & Hx & E). apply str_eqb_eq in E. now subst.
  - intros H. exists m. split; [exact H | apply str_eqb_refl].
Qed.

Lemma validateMethod_Returned (m m' : option jsstring) :
  validateMethod m = Returned m' -> m' = m.
Proof.
  destruct m as [m|]; simpl.
  - destruct (allowed_method m); simpl; [|discriminate].
    now intros H; inversion H.
  - now intros H; inversion H.
Qed.

Lemma bind_Returned {A B} (r : result A) (k : A -> result B) (b : B) :
  bind r k = Returned b -> exists a, r = Returned a /\ k a = Returned b.
Proof. destruct r as [a|e]; simpl; [eauto | discriminate]. Qed.

Lemma bind_Thrown {A B} (r : result A) (k : A -> result B) (e : exn) :
  r = Thrown e -> bind r k = Thrown e.
Proof. now intros ->. Qed.

Section ResourceProperties.

Variable URL_ok : jsstring -> bool.
Variable Date_parse : jsstring -> option Z.
Variable toISOString : Z -> jsstring.
Variable base : option jsstring.

Lemma events_create_method now input v :
  EventsResource.create_validatedInput URL_ok Date_parse toISOString base
    now input
  = Returned v ->
  method v = method_or_POST (method input).
Proof.
  unfold EventsResource.create_validatedInput. intros H.
  apply bind_Returned in H as (_ & _ & H).
  apply bind_Returned in H as (m & Hm & H).
  apply bind_Returned in H as (u & _ & H).
  apply bind_Returned in H as (_ & _ & H).
  apply bind_Returned in H as (_ & _ & H).
  inversion H; subst v. simpl. now apply validateMethod_Returned.
Qed.

Lemma events_update_method now input v :
  EventsResource.update_validatedInput URL_ok Date_parse toISOString base
    now input
  = Returned v ->
  method v = method input.
Proof.
  unfold EventsResource.update_validatedInput. intros H.
  apply bind_Returned in H as (_ & _ & H).
  apply bind_Returned in H as (m & Hm & H).
  apply bind_Returned in H as (u & _ & H).
  apply bind_Returned in H as (_ & _ & H).
  apply bind_Returned in H as (_ & _ & H).
  inversion H; subst v. simpl. now apply validateMethod_Returned.
Qed.

Lemma crons_create_method input v :
  CronsResource.create_validatedInput URL_ok base input = Returned v ->
  c_method v = method_or_POST (c_method input).
Proof.
  unfold CronsResource.create_validatedInput. intros H.
  apply bind_Returned in H as (m & Hm & H).
  apply bind_Returned in H as (u & _ & H).
  apply bind_Returned in H as (_ & _ & H).
  apply bind_Returned in H as (_ & _ & H).
  inversion H; subst v. simpl. now apply validateMethod_Returned.
Qed.

Lemma crons_update_method input v :
  CronsResource.update_validatedInput URL_ok base input = Returned v ->
  c_method v = c_method input.
Proof.
  unfold CronsResource.update_validatedInput. intros H.
  apply bind_Returned in H as (m & Hm & H).
  apply bind_Returned in H as (u & _ & H).
  apply bind_Returned in H as (_ & _ & H).
  apply bind_Returned in H as (_ & _ & H).
  inversion H; subst v. simpl. now apply validateMethod_Returned.
Qed.

End ResourceProperties.

Section WhatIsSent.

Variable URL_ok : jsstring -> bool.
Variable Date_parse : jsstring -> option Z.
Variable toISOString : Z -> jsstring.
Variable API : jsstring.
Variable fetch : jsstring -> FetchInit -> Response.
Variable getKey : ProcessEnv -> result jsstring.
Variable base : option jsstring.

(** A valid input is sent as [create] and [update] validated it. *)
Lemma events_create_sends now env input v :
  EventsResource.create_validatedInput URL_ok Date_parse toISOString base
    now input = Returned v ->
  EventsResource.create URL_ok Date_parse toISOString API fetch getKey base
    now env input
  = (response <- HttpClient.post API fetch getKey env (js "/api/v1/events")
                   (event_body v) ;;
     read_data response).
Proof. intros H. unfold EventsResource.create. now rewrite H. Qed.

Lemma events_update_sends now env id input v :
  EventsResource.update_validatedInput URL_ok Date_parse toISOString base
    now input = Returned v ->
  EventsResource.update URL_ok Date_parse toISOString API fetch getKey base
    now env id input
  = (response <- HttpClient.put API fetch getKey env
                   (js "/api/v1/events/" ++ id) (event_body v) ;;
     read_data response).
Proof. intros H. unfold EventsResource.update. now rewrite H. Qed.

Lemma crons_create_sends env input v :
  CronsResource.create_validatedInput URL_ok base input = Returned v ->
  CronsResource.create URL_ok API fetch getKey base env input
  = (response <- HttpClient.post API fetch getKey env (js "/api/v1/crons")
                   (cron_body v) ;;
     read_data response).
Proof. intros H. unfold CronsResource.create. now rewrite H. Qed.

Lemma crons_update_sends env id input v :
  CronsResource.update_validatedInput URL_ok base input = Returned v ->
  CronsResource.update URL_ok API fetch getKey base env id input
  = (response <- HttpClient.put API fetch getKey env
                   (js "/api/v1/crons/" ++ id) (cron_body v) ;;
     read_data response).
Proof. intros H. unfold CronsResource.update. now rewrite H. Qed.

End WhatIsSent.

(** C7: [validateMethod] returns [undefined] for [undefined]; a method of
    the seven-element set is returned as it is, and any other defined
    method throws a [ValidationError] whose message and details list the
    allowed set.  A missing method becomes [POST] in the input that
    [create] validates and sends, for events and for crons: the body that
    [create] hands to [post] has the method [POST], and for every remote
    end a [create] without a method gives what the same [create] with
    [POST] gives.  [update] passes the caller's method through,
    [undefined] included: the body that [update] hands to [put] has the
    caller's method. *)
Theorem C7_validateMethod :
  validateMethod None = Returned None /\
  ALLOWED_HTTP_METHODS
  = [js "GET"; js "POST"; js "PUT"; js "PATCH"; js "DELETE"; js "HEAD";
     js "OPTIONS"] /\
  List.length ALLOWED_HTTP_METHODS = 7%nat /\
  (forall m, In m ALLOWED_HTTP_METHODS ->
     validateMethod (Some m) = Returned (Some m)) /\
  (forall m, ~ In m ALLOWED_HTTP_METHODS ->
     validateMethod (Some m)
     = throwValidation (method_message m) (method_details m)) /\
  (forall m,
     method_message m
     = js "Invalid HTTP method: " ++ dquote ++ m ++ dquote
         ++ js ". Must be one of: GET, POST, PUT, PATCH, DELETE, HEAD, OPTIONS") /\
  method_or_POST None = Some (js "POST") /\
  (forall URL_ok Date_parse toISOString base now input v,
     EventsResource.create_validatedInput URL_ok Date_parse toISOString base
    now input
     = Returned v ->
     method v = method_or_POST (method input)) /\
  (forall URL_ok base input v,
     CronsResource.create_validatedInput URL_ok base input = Returned v ->
     c_method v = method_or_POST (c_method input)) /\
  (forall URL_ok Date_parse toISOString base now input v,
     EventsResource.update_validatedInput URL_ok Date_parse toISOString base
    now input
     = Returned v ->
     method v = method input) /\
  (forall URL_ok base input v,
     CronsResource.update_validatedInput URL_ok base input = Returned v ->
     c_method v = c_method input) /\
  (forall URL_ok Date_parse toISOString API fetch getKey base now env input v,
     EventsResource.create_validatedInput URL_ok Date_parse toISOString base
       now input = Returned v ->
     EventsResource.create URL_ok Date_parse toISOString API fetch getKey
       base now env input
     = (response <- HttpClient.post API fetch getKey env
                      (js "/api/v1/events") (event_body v) ;;
        read_data response)
     /\ opt_prop (event_body v) (js "method")
        = of_opt (method_or_POST (method input))) /\
  (forall URL_ok API fetch getKey base env input v,
     CronsResource.create_validatedInput URL_ok base input = Returned v ->
     CronsResource.create URL_ok API fetch getKey base env input
     = (response <- HttpClient.post API fetch getKey env
                      (js "/api/v1/crons") (cron_body v) ;;
        read_data response)
     /\ opt_prop (cron_body v) (js "method")
        = of_opt (method_or_POST (c_method input))) /\
  (forall URL_ok Date_parse toISOString API fetch getKey base now env id
          input v,
     EventsResource.update_validatedInput URL_ok Date_parse toISOString base
       now input = Returned v ->
     EventsResource.update URL_ok Date_parse toISOString API fetch getKey
       base now env id input
     = (response <- HttpClient.put API fetch getKey env
                      (js "/api/v1/events/" ++ id) (event_body v) ;;
        read_data response)
     /\ opt_prop (event_body v) (js "method") = of_opt (method input)) /\
  (forall URL_ok API fetch getKey base env id input v,
     CronsResource.update_validatedInput URL_ok base input = Returned v ->
     CronsResource.update URL_ok API fetch getKey base env id input
     = (response <- HttpClient.put API fetch getKey env
                      (js "/api/v1/crons/" ++ id) (cron_body v) ;;
        read_data response)
     /\ opt_prop (cron_body v) (js "method") = of_opt (c_method input)) /\
  (forall URL_ok Date_parse toISOString API fetch getKey base now env input,
     EventsResource.create URL_ok Date_parse toISOString API fetch getKey
       base now env (with_method input None)
     = EventsResource.create URL_ok Date_parse toISOString API fetch getKey
         base now env (with_method input (Some (js "POST")))) /\
  (forall URL_ok API fetch getKey base env input,
     CronsResource.create URL_ok API fetch getKey base env
       (with_c_method input None)
     = CronsResource.create URL_ok API fetch getKey base env
         (with_c_method input (Some (js "POST")))).
Proof.
  repeat match goal with |- _ /\ _ => split end; try reflexivity.
  - intros m H. apply allowed_method_In in H.
    unfold validateMethod. now rewrite H.
  - intros m H. unfold validateMethod.
    destruct (allowed_method m) eqn:E; [|reflexivity].
    apply allowed_method_In in E. contradiction.
  - apply events_create_method.
  - apply crons_create_method.
  - apply events_update_method.
  - apply crons_update_method.
  - intros. split; [now apply events_create_sends|].
    erewrite <- events_create_method by eassumption. reflexivity.
  - intros. split; [now apply crons_create_sends|].
    erewrite <- crons_create_method by eassumption. reflexivity.
  - intros. split; [now apply events_update_sends|].
    erewrite <- events_update_method by eassumption. reflexivity.
  - intros. split; [now apply crons_update_sends|].
    erewrite <- crons_update_method by eassumption. reflexivity.
Qed.

(** An event with no method, a year before its scheduled time, sent to a
    remote end that echoes what it receives: the body that [create] sent
    has the method [POST], the body that [update] sent has none. *)
Lemma C7_witness :
  (exists v,
     EventsResource.create_validatedInput sample_URL_ok sample_Date_parse
       (fun _ => js "now") None 1861920000000 (sample_event None)
     = Returned v /\
     EventsResource.create sample_URL_ok sample_Date_parse
       (fun _ => js "now") [] echo_fetch (fun _ => Returned (js "key")) None
       1861920000000 None (sample_event None)
     = Returned (event_body v) /\
     opt_prop (event_body v) (js "method") = VString (js "POST")) /\
  (exists v,
     EventsResource.update_validatedInput sample_URL_ok sample_Date_parse
       (fun _ => js "now") None 1861920000000 (sample_event None)
     = Returned v /\
     EventsResource.update sample_URL_ok sample_Date_parse
       (fun _ => js "now") [] echo_fetch (fun _ => Returned (js "key")) None
       1861920000000 None (js "id") (sample_event None)
     = Returned (event_body v) /\
     opt_prop (event_body v) (js "method") = VUndefined).
Proof.
  split; eexists; (split; [reflexivity|]).
  - destruct (proj1 (proj2 (proj2 (proj2 (proj2 (proj2 (proj2 (proj2 (proj2
                (proj2 (proj2 (proj2 C7_validateMethod)))))))))))
              sample_URL_ok sample_Date_parse (fun _ => js "now") []
              echo_fetch (fun _ => Returned (js "key")) None 1861920000000
              None (sample_event None) _ eq_refl) as [Hs Hm].
    split; [rewrite Hs; reflexivity | exact Hm].
  - destruct (proj1 (proj2 (proj2 (proj2 (proj2 (proj2 (proj2 (proj2 (proj2
                (proj2 (proj2 (proj2 (proj2 (proj2
                   C7_validateMethod)))))))))))))
              sample_URL_ok sample_Date_parse (fun _ => js "now") []
              echo_fetch (fun _ => Returned (js "key")) None 1861920000000
              None (js "id") (sample_event None) _ eq_refl) as [Hs Hm].
    split; [rewrite Hs; reflexivity | exact Hm].
Defined.

(** ** The order of the validations in [events.create] *)

Lemma validateScheduledAt_throws Date_parse toISOString now v e :
  validateScheduledAt Date_parse toISOString now v = Thrown e ->
  is_validation_exn e.
Proof. unfold validateScheduledAt. split_validator. Qed.

Lemma validateMethod_throws m e :
  validateMethod m = Thrown e -> is_validation_exn e.
Proof. unfold validateMethod. split_validator. Qed.

Lemma validateRetryConfig_throws v e :
  validateRetryConfig v = Thrown e -> is_validation_exn e.
Proof. unfold validateRetryConfig. split_validator. Qed.

Lemma validateHeaderEntries_throws entries e :
  validateHeaderEntries entries = Thrown e -> is_validation_exn e.
Proof.
  induction entries as [|[key v] rest IH]; simpl; [discriminate|].
  destruct (str_eqb (trim key) []).
  - intros H; inversion H. unfold is_validation_exn; eauto.
  - destruct v; try exact IH;
      intros H; inversion H; unfold is_validation_exn; eauto.
Qed.

Lemma validateHeaders_throws v e :
  validateHeaders v = Thrown e -> is_validation_exn e.
Proof.
  destruct v; simpl; try discriminate;
    try (intros H; inversion H; unfold is_validation_exn; eauto; fail).
  apply validateHeaderEntries_throws.
Qed.

(** C1, as stated, fails: with an invalid method and an empty scheduled
    time, the method check does fail, yet the error of [events.create] is
    the one of the scheduled time, which runs first. *)
Lemma C1_counterexample :
  let input :=
    mkEventInput (VString (js "https://example.com/webhook"))
      (Some (js "INVALID")) (VString []) VUndefined VUndefined VUndefined in
  validateMethod (method_or_POST (method input))
  = throwValidation (method_message (js "INVALID"))
      (method_details (js "INVALID"))
  /\
  (forall URL_ok Date_parse toISOString API fetch getKey base now env,
     EventsResource.create URL_ok Date_parse toISOString API fetch getKey
       base now env input
     = throwValidation (js "scheduled_at is required and must be a string")
         (field_value (js "scheduled_at") (VString [])))
  /\
  throwValidation (A := value)
    (js "scheduled_at is required and must be a string")
    (field_value (js "scheduled_at") (VString []))
  <> throwValidation (method_message (js "INVALID"))
       (method_details (js "INVALID")).
Proof.
  split; [reflexivity|]. split; [reflexivity|]. discriminate.
Qed.

(** C1, amended: [events.create] runs its validations in the fixed order
    scheduled time, HTTP method (a missing method taken as [POST]), webhook
    URL, retry configuration, headers.  On an input with several invalid
    fields the error thrown is the [ValidationError] of the earliest failing
    validation in that order, and it is thrown whatever the API key and the
    remote end are; when none fails the validated input is produced and
    sent by a POST. *)
Theorem C1_events_create_order
  (URL_ok : jsstring -> bool) (Date_parse : jsstring -> option Z)
  (toISOString : Z -> jsstring) (API : jsstring)
  (fetch : jsstring -> FetchInit -> Response)
  (getKey : ProcessEnv -> result jsstring) (base : option jsstring)
  (now : Z) (env : ProcessEnv) (input : EventInput) :
  match
    first_thrown
      (events_create_checks URL_ok Date_parse toISOString base now input)
  with
  | Some e =>
      EventsResource.create URL_ok Date_parse toISOString API fetch getKey
        base now env input = Thrown e
      /\ is_validation_exn e
  | None =>
      exists v,
        EventsResource.create_validatedInput URL_ok Date_parse toISOString
          base now input = Returned v
        /\ EventsResource.create URL_ok Date_parse toISOString API fetch
             getKey base now env input
           = (response <- HttpClient.post API fetch getKey env
                            (js "/api/v1/events") (event_body v) ;;
              read_data response)
  end.
Proof.
  unfold events_create_checks, EventsResource.create,
    EventsResource.create_validatedInput.
  cbn [first_thrown].
  destruct (validateScheduledAt Date_parse toISOString now
              (scheduled_at input)) as [[]|e] eqn:E1; cbn [thrown bind].
  2: { split; [reflexivity|].
       eapply validateScheduledAt_throws; exact E1. }
  destruct (validateMethod (method_or_POST (method input))) as [m|e] eqn:E2;
    cbn [thrown bind].
  2: { split; [reflexivity|]. eapply validateMethod_throws; exact E2. }
  destruct (validateAndNormalizeWebhookUrl URL_ok base (webhook_url input))
    as [u|e] eqn:E3; cbn [thrown bind].
  2: { split; [reflexivity|].
       eapply validate_throws_only_ValidationError; exact E3. }
  cbn [retry_config headers].
  destruct (validateRetryConfig (nullish (retry_config input) VNull))
    as [[]|e] eqn:E4; cbn [thrown bind].
  2: { split; [reflexivity|]. eapply validateRetryConfig_throws; exact E4. }
  destruct (validateHeaders (nullish (headers input) VNull))
    as [[]|e] eqn:E5; cbn [thrown bind].
  2: { split; [reflexivity|]. eapply validateHeaders_throws; exact E5. }
  eexists; split; reflexivity.
Qed.

(** ** The transport adapter *)

(** On a body that is neither [null] nor [undefined], [handleError] throws
    the typed error that C8 assigns to the status. *)
Lemma handleError_typed (statusCode : Z) (data : value) :
  data <> VNull -> data <> VUndefined ->
  exists c,
    HttpClient.handleError statusCode data = ECuey c /\
    name c = class_of_status statusCode
               (opt_prop match read_error data with
                         | Returned err => err
                         | Thrown _ => VUndefined
                         end (js "code")).
Proof.
  intros Hn Hu. unfold HttpClient.handleError, class_of_status.
  destruct (read_error data) as [err|e] eqn:E.
  2: { destruct data; simpl in E; congruence. }
  destruct (statusCode =? 401); [eexists; split; reflexivity|].
  destruct (statusCode =? 404); [eexists; split; reflexivity|].
  destruct (statusCode =? 400).
  - destruct (is_validation_code _); eexists; split; reflexivity.
  - destruct (statusCode >=? 500); eexists; split; reflexivity.
Qed.

(** A [Content-Type: application/json] body that fails to parse throws an
    [InternalServerError], whatever the status. *)
Lemma read_body_parse_failure (response : Response) ct reason :
  content_type response = Some ct ->
  includes ct (js "application/json") = true ->
  json response = ParseFailure reason ->
  exists c, HttpClient.read_body response = Thrown (ECuey c)
            /\ name c = InternalServerError.
Proof.
  intros Hc Hi Hj. unfold HttpClient.read_body. rewrite Hc, Hi, Hj.
  eexists; split; reflexivity.
Qed.

(** A non-2xx response whose body is read as a value other than [null]
    makes [request] throw the typed error of its status. *)
Lemma request_non_2xx_typed API key env path options response data :
  HttpClient.read_body response = Returned data ->
  ok response = false ->
  data <> VNull -> data <> VUndefined ->
  exists c,
    HttpClient.request API (fun _ _ => response) (fun _ => Returned key)
      env path options
    = Thrown (ECuey c) /\
    name c = class_of_status (status response)
               (opt_prop match read_error data with
                         | Returned err => err
                         | Thrown _ => VUndefined
                         end (js "code")).
Proof.
  intros Hb Hok Hn Hu.
  destruct (handleError_typed (status response) data Hn Hu) as (c & Hc & Hk).
  exists c. split; [|exact Hk].
  unfold HttpClient.request. cbn [bind]. rewrite Hb. cbn [bind].
  now rewrite Hok, Hc.
Qed.

(** C8 fails on the code for a non-2xx response whose JSON body is the
    literal [null]: [handleError] reads [data.error] on [null], so what
    [request] throws is a [TypeError], not a member of the taxonomy,
    whatever the status. *)
Theorem C8_null_body_throws_TypeError :
  (forall statusCode, HttpClient.handleError statusCode VNull = ETypeError) /\
  (forall API key env path options statusCode,
     ok (null_body_response statusCode) = false ->
     HttpClient.request API (fun _ _ => null_body_response statusCode)
       (fun _ => Returned key) env path options
     = Thrown ETypeError) /\
  HttpClient.request [] (fun _ _ => null_body_response 500)
    (fun _ => Returned (js "key")) None (js "/api/v1/events")
    (mkOptions (Some (js "GET")) VUndefined [])
  = Thrown ETypeError /\
  instanceof_CueyError ETypeError = false.
Proof.
  repeat split.
  intros API key env path options statusCode Hok.
  unfold HttpClient.request.
  cbn [bind HttpClient.read_body null_body_response content_type json].
  change (includes (js "application/json") (js "application/json")) with true.
  cbv iota. cbn [bind]. fold (null_body_response statusCode).
  rewrite Hok. reflexivity.
Qed.

(** ** The facade *)

Lemma resolve_first_present explicit env X :
  resolve explicit (env_read env X)
  = of_opt (first_present explicit (env_var env X)).
Proof.
  unfold resolve, first_present, env_read, env_var, or_else.
  destruct explicit as [[|c s]|]; cbn [of_opt truthy str_eqb negb present];
    destruct env as [vars|]; cbn [truthy];
    try destruct (X vars) as [[|c' s']|]; reflexivity.
Qed.

Lemma getApiKey_first_present config env :
  getApiKey config env
  = match first_present (apiKey config) (env_var env CUEY_API_KEY) with
    | Some k => Returned k
    | None => Thrown (EError API_KEY_REQUIRED)
    end.
Proof.
  unfold getApiKey. rewrite resolve_first_present.
  unfold first_present.
  destruct (apiKey config) as [[|c s]|]; cbn [present of_opt];
    try reflexivity;
    destruct (env_var env CUEY_API_KEY) as [[|c' s']|]; reflexivity.
Qed.

(** C9, as stated, fails on the precedence of the explicit base URL: an
    explicit empty string does not win over the environment variable. *)
Lemma C9_counterexample :
  exists c,
    Cuey_new (Some (mkConfig (Some []) None))
      (Some (mkEnv (Some (js "https://env.example.com")) None))
    = Returned c
    /\ webhookBaseUrl c = Some (js "https://env.example.com")
    /\ webhookBaseUrl c <> Some [].
Proof.
  eexists. split; [reflexivity|]. split; [reflexivity | discriminate].
Qed.

(** C9, amended: constructing the facade never throws, for every
    configuration, the empty and the omitted one included.  The base URL is
    fixed at construction from the environment of that moment: the explicit
    value when it is a non-empty string, else the environment variable when
    it is one, else [undefined].  The API key is resolved at each call, from
    the environment of the call, by the same rule; when neither source
    gives a non-empty key the call throws, before any request is sent, an
    error whose message starts with [API key is required]. *)
Theorem C9_facade (config : option CueyConfig) (env0 : ProcessEnv) :
  exists c,
    Cuey_new config env0 = Returned c /\
    webhookBaseUrl c
    = first_present (baseUrl (default_config config))
        (env_var env0 CUEY_BASE_URL) /\
    (forall env,
       http_getApiKey c env
       = match first_present (apiKey (default_config config))
                 (env_var env CUEY_API_KEY) with
         | Some k => Returned k
         | None => Thrown (EError API_KEY_REQUIRED)
         end) /\
    (forall env API fetch path options,
       first_present (apiKey (default_config config))
         (env_var env CUEY_API_KEY) = None ->
       HttpClient.request API fetch (http_getApiKey c) env path options
       = Thrown (EError API_KEY_REQUIRED)) /\
    startsWith API_KEY_REQUIRED (js "API key is required") = true.
Proof.
  eexists. split; [reflexivity|]. cbn [webhookBaseUrl http_getApiKey].
  fold (default_config config). repeat split.
  - rewrite resolve_first_present.
    now destruct (first_present _ _).
  - intros env. apply getApiKey_first_present.
  - intros env API fetch path options H. unfold HttpClient.request.
    now rewrite getApiKey_first_present, H.
Qed.

(** The default instance, built and used with no environment at all. *)
Lemma C9_witness :
  exists c,
    cuey None = Returned c /\
    webhookBaseUrl c = None /\
    EventsResource.list [] sample_fetch (http_getApiKey c)
      None []
    = Thrown (EError API_KEY_REQUIRED).
Proof.
  destruct (C9_facade None None) as (c & Hc & Hb & _ & Hr & _).
  exists c. split; [exact Hc|]. split; [exact Hb|].
  exact (Hr None [] sample_fetch
           (list_path (js "/api/v1/events") [])
           (mkOptions (Some (js "GET")) VUndefined []) eq_refl).
Defined.

(** C10: when no API key is resolvable, what a request throws is a plain
    [Error] whose message starts with [API key is required]; it is not an
    instance of [CueyError], so not an [UnauthorizedError], and it has no
    [code] and no [statusCode]. *)
Theorem C10_missing_key_is_plain_Error
  (config : CueyConfig) (env : ProcessEnv) (API : jsstring)
  (fetch : jsstring -> FetchInit -> Response) (path : jsstring)
  (options : RequestOptions) :
  first_present (apiKey config) (env_var env CUEY_API_KEY) = None ->
  exists e msg,
    HttpClient.request API fetch (getApiKey config) env path options
    = Thrown e /\
    e = EError msg /\
    startsWith msg (js "API key is required") = true /\
    instanceof_CueyError e = false /\
    instanceof e UnauthorizedError = false /\
    exn_code e = None /\
    exn_statusCode e = None.
Proof.
  intros H. exists (EError API_KEY_REQUIRED), API_KEY_REQUIRED.
  repeat split. unfold HttpClient.request.
  now rewrite getApiKey_first_present, H.
Qed.

Lemma C10_witness :
  exists e msg,
    HttpClient.request [] sample_fetch
      (getApiKey (mkConfig None None)) None (js "/api/v1/events")
      (mkOptions (Some (js "GET")) VUndefined [])
    = Thrown e /\
    e = EError msg /\
    startsWith msg (js "API key is required") = true /\
    instanceof_CueyError e = false /\
    instanceof e UnauthorizedError = false /\
    exn_code e = None /\
    exn_statusCode e = None.
Proof.
  exact (C10_missing_key_is_plain_Error (mkConfig None None) None []
           sample_fetch (js "/api/v1/events")
           (mkOptions (Some (js "GET")) VUndefined []) eq_refl).
Defined.

(* ------------------------------------------------------------------ *)
(** * Further properties of the code *)

(** ** The headers validator *)

Lemma header_ok_dec (kv : jsstring * value) : {header_ok kv} + {~ header_ok kv}.
Proof.
  destruct kv as [k v]. unfold header_ok; simpl.
  destruct (str_eqb (trim k) []) eqn:E.
  - right. apply str_eqb_eq in E. intros [H _]. contradiction.
  - apply str_eqb_neq in E.
    destruct v; try (right; intros [_ [s H]]; discriminate).
    left. split; [exact E | eauto].
Qed.

Lemma validateHeaderEntries_all_ok (entries : list (jsstring * value)) :
  validateHeaderEntries entries = Returned tt <-> Forall header_ok entries.
Proof.
  induction entries as [|[k v] rest IH]; simpl.
  - split; [constructor | reflexivity].
  - destruct (str_eqb (trim k) []) eqn:E.
    + split; [discriminate|]. intros H. inversion H as [|? ? [Hk _] _]; subst.
      apply str_eqb_eq in E. simpl in Hk. contradiction.
    + apply str_eqb_neq in E.
      destruct v;
        try (split; [discriminate|];
             intros H; inversion H as [|? ? [_ [s Hs]] _]; discriminate).
      rewrite IH. split.
      * intros H. constructor; [split; [exact E | simpl; eauto] | exact H].
      * intros H. now inversion H.
Qed.

Lemma validateHeaderEntries_first_offender good k v rest :
  Forall header_ok good -> ~ header_ok (k, v) ->
  exists m,
    validateHeaderEntries (good ++ (k, v) :: rest)
    = throwValidation m (header_details k v).
Proof.
  intros Hg Hbad. induction Hg as [|[k' v'] good [Hk [s Hs]] _ IH]; simpl.
  - destruct (str_eqb (trim k) []) eqn:E; [eauto|].
    apply str_eqb_neq in E.
    destruct v; eauto.
    exfalso. apply Hbad. split; [exact E | simpl; eauto].
  - simpl in Hk, Hs. subst v'. apply str_eqb_neq in Hk. rewrite Hk. exact IH.
Qed.

(** X1: [validateHeaders] accepts exactly [null], [undefined] and the
    objects all of whose entries have a key that is not blank after
    trimming and a string value; an array and every other value is
    rejected.  On an object the error reports the first offending entry,
    in the order of [Object.entries], by its key and value. *)
Theorem X1_validateHeaders_accepts_iff (v : value) :
  (validateHeaders v = Returned tt <->
   v = VNull \/ v = VUndefined \/
   exists props, v = VObject props /\ Forall header_ok props) /\
  (forall good k x rest,
     v = VObject (good ++ (k, x) :: rest) ->
     Forall header_ok good -> ~ header_ok (k, x) ->
     exists m, validateHeaders v = throwValidation m (header_details k x)) /\
  (forall e, validateHeaders v = Thrown e -> is_validation_exn e).
Proof.
  split; [|split].
  - destruct v; simpl; split; intros H; auto;
      try discriminate;
      try (destruct H as [H|[H|(p & H & _)]]; discriminate).
    + right; right. exists props. split; [reflexivity|].
      now apply validateHeaderEntries_all_ok.
    + destruct H as [H|[H|(p & H & Hp)]]; try discriminate.
      inversion H; subst p. now apply validateHeaderEntries_all_ok.
  - intros good k x rest -> Hg Hb. simpl.
    now apply validateHeaderEntries_first_offender.
  - intros e. apply validateHeaders_throws.
Qed.

(** An empty key and a numeric value, as the specification's examples. *)
Lemma X1_witness :
  (exists m,
     validateHeaders
       (VObject [(js "Accept", VString (js "*/*"));
                 ([], VString (js "value"))])
     = throwValidation m (header_details [] (VString (js "value")))) /\
  (exists m,
     validateHeaders (VObject [(js "X-H", num 123)])
     = throwValidation m (header_details (js "X-H") (num 123))).
Proof.
  split.
  - refine (proj1 (proj2 (X1_validateHeaders_accepts_iff _))
              [(js "Accept", VString (js "*/*"))] [] (VString (js "value")) []
              eq_refl _ _).
    + repeat constructor; [discriminate | simpl; eauto].
    + intros [H _]. now apply H.
  - refine (proj1 (proj2 (X1_validateHeaders_accepts_iff _))
              [] (js "X-H") (num 123) [] eq_refl _ _).
    + constructor.
    + intros [_ [s H]]. discriminate.
Defined.

(** ** The retry configuration validator, outside its declared type *)

(** X2: [validateRetryConfig] reads only [maxRetries], [backoffMs] and
    [backoffType]: two objects that agree on these three are accepted or
    rejected alike, whatever other properties they hold.  An array passes
    the [typeof] test and has none of the three, so it is accepted; a
    boolean, a number or a string is rejected with the field
    [retry_config] and itself as the value. *)
Theorem X2_validateRetryConfig_reads_three_fields :
  (forall props props',
     lookup (js "maxRetries") props = lookup (js "maxRetries") props' ->
     lookup (js "backoffMs") props = lookup (js "backoffMs") props' ->
     lookup (js "backoffType") props = lookup (js "backoffType") props' ->
     validateRetryConfig (VObject props) = validateRetryConfig (VObject props'))
  /\ (forall items, validateRetryConfig (VArray items) = Returned tt)
  /\ (forall v,
        (exists b, v = VBool b) \/ (exists n, v = VNumber n)
        \/ (exists s, v = VString s) ->
        validateRetryConfig v
        = throwValidation (js "retry_config must be an object or null")
            (field_value (js "retry_config") v)).
Proof.
  split; [|split].
  - intros props props' H1 H2 H3.
    rewrite !validateRetryConfig_object. cbv zeta. now rewrite H1, H2, H3.
  - reflexivity.
  - intros v [[b ->]|[[n ->]|[s ->]]]; reflexivity.
Qed.

Lemma X2_witness :
  validateRetryConfig
    (VObject [(js "maxRetries", num 3); (js "note", VString (js "unknown"))])
  = validateRetryConfig (VObject [(js "maxRetries", num 3)]).
Proof.
  exact (proj1 X2_validateRetryConfig_reads_three_fields
           [(js "maxRetries", num 3); (js "note", VString (js "unknown"))]
           [(js "maxRetries", num 3)] eq_refl eq_refl eq_refl).
Defined.

(** ** The scheduled time validator and the clock *)

Lemma validateScheduledAt_cases Date_parse toISOString now v :
  validateScheduledAt Date_parse toISOString now v = Returned tt <->
  exists s date,
    v = VString s /\ trim s <> [] /\ Date_parse (trim s) = Some date
    /\ now < date.
Proof.
  split.
  - intros H. destruct v;
      try (rewrite validateScheduledAt_not_string in H
             by (left; intros s'; discriminate); discriminate).
    destruct s as [|c s]; [discriminate|].
    rewrite validateScheduledAt_string in H by discriminate. cbv zeta in H.
    destruct (str_eqb (trim (c :: s)) []) eqn:E; [discriminate|].
    apply str_eqb_neq in E.
    destruct (Date_parse (trim (c :: s))) as [date|] eqn:D; [|discriminate].
    destruct (date <=? now) eqn:L; [discriminate|].
    apply Z.leb_gt in L. exists (c :: s), date. auto.
  - intros (s & date & -> & Ht & Hd & Hlt).
    rewrite validateScheduledAt_string by (intros ->; now apply Ht).
    cbv zeta. apply str_eqb_neq in Ht. rewrite Ht, Hd.
    apply Z.leb_gt in Hlt. now rewrite Hlt.
Qed.

(** X3: the verdict of [validateScheduledAt] is monotone in the clock.  A
    timestamp accepted when the clock reads [now] is accepted at every
    earlier reading, and one rejected at [now] is rejected at every later
    reading: once a timestamp has passed it never becomes valid again. *)
Theorem X3_validateScheduledAt_monotone
  (Date_parse : jsstring -> option Z) (toISOString : Z -> jsstring)
  (now now' : Z) (v : value) :
  now <= now' ->
  (validateScheduledAt Date_parse toISOString now' v = Returned tt ->
   validateScheduledAt Date_parse toISOString now v = Returned tt) /\
  (isThrown (validateScheduledAt Date_parse toISOString now v) = true ->
   isThrown (validateScheduledAt Date_parse toISOString now' v) = true).
Proof.
  intros Hle.
  assert (M : validateScheduledAt Date_parse toISOString now' v = Returned tt ->
              validateScheduledAt Date_parse toISOString now v = Returned tt).
  { intros H. apply validateScheduledAt_cases in H
      as (s & date & Hv & Ht & Hd & Hlt).
    apply validateScheduledAt_cases. exists s, date.
    repeat split; auto. lia. }
  split; [exact M|].
  destruct (validateScheduledAt Date_parse toISOString now' v) as [[]|e] eqn:E;
    [|reflexivity].
  rewrite (M eq_refl). discriminate.
Qed.

Lemma X3_witness :
  validateScheduledAt sample_Date_parse (fun _ => js "now") 0
    (VString (js "2030-01-01T00:00:00.000Z"))
  = Returned tt.
Proof.
  refine (proj1 (X3_validateScheduledAt_monotone sample_Date_parse
                   (fun _ => js "now") 0 1861920000000
                   (VString (js "2030-01-01T00:00:00.000Z")) _)
                eq_refl).
  discriminate.
Defined.

(** ** The webhook URL validator: fixed points and the base URL *)

Lemma trimEnd_idem (s : jsstring) : trimEnd (trimEnd s) = trimEnd s.
Proof.
  induction s as [|c r IH]; [reflexivity|]. simpl.
  destruct (trimEnd r) as [|z r'] eqn:E.
  - destruct (isWhiteSpace c) eqn:W; [reflexivity|]. simpl. now rewrite W.
  - change (trimEnd (c :: z :: r')) with
      (match trimEnd (z :: r') with
       | [] => if isWhiteSpace c then [] else [c]
       | x :: y => c :: x :: y
       end).
    now rewrite IH.
Qed.

Lemma trimEnd_app (a x : jsstring) :
  x <> [] -> trimEnd x = x -> trimEnd (a ++ x) = a ++ x.
Proof.
  intros Hx Hfix. induction a as [|c a IH]; [exact Hfix|].
  simpl. rewrite IH. destruct (a ++ x) eqn:E; [|reflexivity].
  apply app_eq_nil in E as [_ E]. contradiction.
Qed.

Lemma stripTrailingSlash_app (a r : jsstring) :
  r <> [] -> stripTrailingSlash (a ++ r) = a ++ stripTrailingSlash r.
Proof.
  intros Hr. induction a as [|c a IH]; [reflexivity|].
  simpl. rewrite IH. destruct (a ++ r) eqn:E; [|reflexivity].
  apply app_eq_nil in E as [_ E]. contradiction.
Qed.

Lemma stripTrailingSlash_slash (b : jsstring) :
  stripTrailingSlash (b ++ js "/") = b.
Proof.
  induction b as [|c b IH]; [reflexivity|].
  simpl. rewrite IH. destruct (b ++ js "/") eqn:E; [|reflexivity].
  apply app_eq_nil in E as [_ E]. discriminate.
Qed.

(** What a returned value tells about the input. *)
Lemma validate_Returned_inv URL_ok base v u :
  validateAndNormalizeWebhookUrl URL_ok base v = Returned u ->
  exists s,
    v = VString s /\ s <> [] /\
    ((absolute (trim s) = true /\ u = trim s /\ URL_ok u = true) \/
     (absolute (trim s) = false /\ startsWith (trim s) (js "/") = true /\
      exists b, base = Some b /\ b <> [] /\
                u = stripTrailingSlash b ++ trim s /\ URL_ok u = true)).
Proof.
  intros H.
  assert (T : isThrown (validateAndNormalizeWebhookUrl URL_ok base v) = false)
    by now rewrite H.
  destruct v;
    try (rewrite validate_not_string in T by (intros s'; discriminate);
         discriminate).
  destruct s as [|c s]; [discriminate|].
  exists (c :: s). split; [reflexivity|]. split; [discriminate|].
  rewrite validate_nonempty_string in H by discriminate. cbv zeta in H.
  fold (absolute (trim (c :: s))) in H.
  destruct (absolute (trim (c :: s))) eqn:Ha.
  - left. destruct (URL_ok (trim (c :: s))) eqn:Hu; [|discriminate].
    inversion H; subst u. auto.
  - right. destruct (startsWith (trim (c :: s)) (js "/")) eqn:Hs;
      [|discriminate].
    destruct base as [[|x b]|]; try discriminate.
    destruct (URL_ok (stripTrailingSlash (x :: b) ++ trim (c :: s))) eqn:Hu;
      [|discriminate].
    inversion H; subst u. repeat split.
    exists (x :: b). repeat split; [discriminate | exact Hu].
Qed.

Lemma absolute_resolved (b t : jsstring) :
  absolute b = true -> startsWith t (js "/") = true ->
  absolute (stripTrailingSlash b ++ t) = true.
Proof.
  intros Hb Ht. unfold absolute in *.
  destruct t as [|c t]; [discriminate|].
  change (js "/") with [47%N] in Ht. cbn [startsWith] in Ht.
  apply andb_true_iff in Ht as [Hc _]. apply N.eqb_eq in Hc. subst c.
  apply orb_true_iff in Hb. apply orb_true_iff.
  destruct Hb as [Hb|Hb]; [left|right];
    apply startsWith_inv in Hb as [r ->];
    (destruct r as [|x r];
     [ rewrite app_nil_r
     | rewrite stripTrailingSlash_app by discriminate;
       rewrite <- app_assoc; apply startsWith_app ]).
  - exact (startsWith_app (js "http://") t).
  - exact (startsWith_app (js "https://") t).
Qed.

(** X4: normalization is idempotent on absolute results.  A value that the
    validator returns and that starts with [http://] or [https://] is
    returned unchanged when it is validated again, under any base URL; and
    a returned value does start so whenever no base URL is configured or
    the base URL itself starts so. *)
Theorem X4_normalization_idempotent
  (URL_ok : jsstring -> bool) (base : option jsstring) (v : value)
  (u : jsstring) :
  validateAndNormalizeWebhookUrl URL_ok base v = Returned u ->
  ((base = None \/ exists b, base = Some b /\ absolute b = true) ->
   absolute u = true) /\
  (absolute u = true ->
   forall base',
     validateAndNormalizeWebhookUrl URL_ok base' (VString u) = Returned u).
Proof.
  intros H.
  apply validate_Returned_inv in H as (s & -> & Hs & H).
  assert (Hend : trimEnd u = u).
  { destruct H as [(_ & -> & _)|(_ & Ht & b & _ & _ & -> & _)].
    - apply trimEnd_idem.
    - apply trimEnd_app; [intros E; rewrite E in Ht; discriminate|].
      apply trimEnd_idem. }
  split.
  - intros Hbase.
    destruct H as [(Ha & -> & _)|(_ & Ht & b & Hb & _ & -> & _)];
      [exact Ha|].
    destruct Hbase as [Hn|(b' & Hb' & Habs)]; [congruence|].
    rewrite Hb in Hb'; inversion Hb'; subst b'.
    now apply absolute_resolved.
  - intros Ha base'.
    assert (Hu : URL_ok u = true)
      by (destruct H as [(_ & _ & Hu)|(_ & _ & b & _ & _ & _ & Hu)];
          exact Hu).
    assert (Htrim : trim u = u).
    { unfold trim. rewrite <- Hend at 2. f_equal.
      unfold absolute in Ha. apply orb_true_iff in Ha as [Ha|Ha].
      - apply (trimStart_startsWith u (js "http://"));
          [discriminate | reflexivity | exact Ha].
      - apply (trimStart_startsWith u (js "https://"));
          [discriminate | reflexivity | exact Ha]. }
    rewrite validate_nonempty_string
      by (intros E; rewrite E in Ha; discriminate).
    cbv zeta. rewrite Htrim. fold (absolute u). now rewrite Ha, Hu.
Qed.

Lemma X4_witness :
  validateAndNormalizeWebhookUrl sample_URL_ok None
    (VString (js "https://example.com/webhook"))
  = Returned (js "https://example.com/webhook").
Proof.
  refine (proj2 (X4_normalization_idempotent sample_URL_ok
                   (Some (js "https://example.com/"))
                   (VString (js " /webhook "))
                   (js "https://example.com/webhook") eq_refl)
                eq_refl None).
Defined.

(** X5: an absolute webhook URL never consults the base URL, and for a
    relative path a single trailing slash on the base URL is immaterial:
    a base [b] that does not end with a slash and the base [b/] resolve
    every input to the same value. *)
Theorem X5_base_url_trailing_slash
  (URL_ok : jsstring -> bool) (b : jsstring) (v : value) :
  b <> [] -> stripTrailingSlash b = b ->
  (forall u,
     validateAndNormalizeWebhookUrl URL_ok (Some (b ++ js "/")) v = Returned u
     <-> validateAndNormalizeWebhookUrl URL_ok (Some b) v = Returned u)
  /\ (forall s base base',
        v = VString s -> absolute (trim s) = true ->
        validateAndNormalizeWebhookUrl URL_ok base v
        = validateAndNormalizeWebhookUrl URL_ok base' v).
Proof.
  intros Hb Hfix. split.
  - intros u.
    destruct v;
      try (split; intros H;
           [ assert (T : isThrown (validateAndNormalizeWebhookUrl URL_ok
                                     (Some (b ++ js "/")) _) = false)
               by (rewrite H; reflexivity)
           | assert (T : isThrown (validateAndNormalizeWebhookUrl URL_ok
                                     (Some b) _) = false)
               by (rewrite H; reflexivity) ];
           rewrite validate_not_string in T by (intros s'; discriminate);
           discriminate).
    destruct s as [|c s]; [split; discriminate|].
    rewrite !validate_nonempty_string by discriminate. cbv zeta.
    destruct (startsWith (trim (c :: s)) (js "http://")
              || startsWith (trim (c :: s)) (js "https://")); [reflexivity|].
    destruct (startsWith (trim (c :: s)) (js "/")); [|reflexivity].
    rewrite stripTrailingSlash_slash.
    destruct (b ++ js "/") as [|y l] eqn:E;
      [apply app_eq_nil in E as [_ E]; discriminate|].
    assert (R : forall A (k1 k2 : result A),
              match b with
              | [] => k1
              | _ :: _ => k2
              end = k2) by (intros; destruct b; [congruence | reflexivity]).
    rewrite R, Hfix.
    destruct (URL_ok (b ++ trim (c :: s))); [reflexivity|].
    split; discriminate.
  - intros s base base' -> Ha.
    destruct s as [|c s]; [discriminate|].
    rewrite !validate_nonempty_string by discriminate. cbv zeta.
    fold (absolute (trim (c :: s))). now rewrite Ha.
Qed.

Lemma X5_witness :
  validateAndNormalizeWebhookUrl sample_URL_ok
    (Some (js "https://example.com")) (VString (js "/webhook"))
  = Returned (js "https://example.com/webhook").
Proof.
  refine (proj1 (proj1 (X5_base_url_trailing_slash sample_URL_ok
                          (js "https://example.com") (VString (js "/webhook"))
                          _ eq_refl)
                       (js "https://example.com/webhook"))
                eq_refl).
  discriminate.
Defined.

(** ** What the resource clients validate and what they send *)

Lemma unit_result_Returned (r : result unit) (x : unit) :
  r = Returned x -> r = Returned tt.
Proof. now destruct x. Qed.

Lemma events_create_validated_inv URL_ok Date_parse toISOString base now
  input v :
  EventsResource.create_validatedInput URL_ok Date_parse toISOString base
    now input = Returned v ->
  exists u,
    validateAndNormalizeWebhookUrl URL_ok base (webhook_url input) = Returned u
    /\ v = mkEventInput (VString u) (method_or_POST (method input))
             (scheduled_at input) (headers input) (payload input)
             (retry_config input).
Proof.
  unfold EventsResource.create_validatedInput. intros H.
  apply bind_Returned in H as (_ & _ & H).
  apply bind_Returned in H as (m & Hm & H).
  apply bind_Returned in H as (u & Hu & H).
  apply bind_Returned in H as (_ & _ & H).
  apply bind_Returned in H as (_ & _ & H).
  apply validateMethod_Returned in Hm. subst m.
  inversion H; subst v. eauto.
Qed.

Lemma events_update_validated_inv URL_ok Date_parse toISOString base now
  input v :
  EventsResource.update_validatedInput URL_ok Date_parse toISOString base
    now input = Returned v ->
  exists u,
    validateAndNormalizeWebhookUrl URL_ok base (webhook_url input) = Returned u
    /\ v = mkEventInput (VString u) (method input)
             (scheduled_at input) (headers input) (payload input)
             (retry_config input).
Proof.
  unfold EventsResource.update_validatedInput. intros H.
  apply bind_Returned in H as (_ & _ & H).
  apply bind_Returned in H as (m & Hm & H).
  apply bind_Returned in H as (u & Hu & H).
  apply bind_Returned in H as (_ & _ & H).
  apply bind_Returned in H as (_ & _ & H).
  apply validateMethod_Returned in Hm. subst m.
  inversion H; subst v. eauto.
Qed.

(** X6: the body that [events.create] hands to [post], and
    [events.update] to [put], is the caller's input with [webhook_url]
    replaced by its normalized form and, for [create], a missing [method]
    replaced by [POST]; nothing else is changed.  [scheduled_at],
    [headers], [payload] and [retry_config] are handed over as given: a
    [scheduled_at] with surrounding white space is validated on its
    trimmed form and still sent untrimmed.  With a method given, [update]
    validates exactly as [create] does.  (The serialization of the body by
    [JSON.stringify] is outside the model.) *)
Theorem X6_events_body_sent
  (URL_ok : jsstring -> bool) (Date_parse : jsstring -> option Z)
  (toISOString : Z -> jsstring) (API : jsstring)
  (fetch : jsstring -> FetchInit -> Response)
  (getKey : ProcessEnv -> result jsstring) (base : option jsstring)
  (now : Z) (env : ProcessEnv) (id : jsstring) (input : EventInput) :
  (forall v,
     EventsResource.create_validatedInput URL_ok Date_parse toISOString base
       now input = Returned v ->
     exists u,
       validateAndNormalizeWebhookUrl URL_ok base (webhook_url input)
       = Returned u
       /\ v = mkEventInput (VString u) (method_or_POST (method input))
                (scheduled_at input) (headers input) (payload input)
                (retry_config input)
       /\ EventsResource.create URL_ok Date_parse toISOString API fetch
            getKey base now env input
          = (response <- HttpClient.post API fetch getKey env
                           (js "/api/v1/events")
                           (event_body
                              (mkEventInput (VString u)
                                 (method_or_POST (method input))
                                 (scheduled_at input) (headers input)
                                 (payload input) (retry_config input))) ;;
             read_data response)) /\
  (forall v,
     EventsResource.update_validatedInput URL_ok Date_parse toISOString base
       now input = Returned v ->
     exists u,
       validateAndNormalizeWebhookUrl URL_ok base (webhook_url input)
       = Returned u
       /\ v = mkEventInput (VString u) (method input)
                (scheduled_at input) (headers input) (payload input)
                (retry_config input)
       /\ EventsResource.update URL_ok Date_parse toISOString API fetch
            getKey base now env id input
          = (response <- HttpClient.put API fetch getKey env
                           (js "/api/v1/events/" ++ id)
                           (event_body
                              (mkEventInput (VString u) (method input)
                                 (scheduled_at input) (headers input)
                                 (payload input) (retry_config input))) ;;
             read_data response)) /\
  (forall m,
     method input = Some m ->
     EventsResource.update_validatedInput URL_ok Date_parse toISOString base
       now input
     = EventsResource.create_validatedInput URL_ok Date_parse toISOString
         base now input).
Proof.
  split; [|split].
  - intros v H.
    destruct (events_create_validated_inv _ _ _ _ _ _ _ H) as (u & Hu & Hv).
    exists u. split; [exact Hu|]. split; [exact Hv|].
    rewrite <- Hv. now apply events_create_sends.
  - intros v H.
    destruct (events_update_validated_inv _ _ _ _ _ _ _ H) as (u & Hu & Hv).
    exists u. split; [exact Hu|]. split; [exact Hv|].
    rewrite <- Hv. now apply events_update_sends.
  - intros m Hm. unfold EventsResource.update_validatedInput,
      EventsResource.create_validatedInput. now rewrite Hm.
Qed.

(** A scheduled time with white space around it and a relative URL, sent
    to a remote end that echoes what it receives: the body arrived with
    the URL resolved, the method [POST] and the scheduled time as given. *)
Lemma X6_witness :
  EventsResource.create sample_URL_ok sample_Date_parse (fun _ => js "now")
    [] echo_fetch (fun _ => Returned (js "key"))
    (Some (js "https://example.com")) 0 None
    (mkEventInput (VString (js " /webhook ")) None
       (VString (js " 2030-01-01T00:00:00.000Z ")) VNull VNull VNull)
  = Returned
      (event_body
         (mkEventInput (VString (js "https://example.com/webhook"))
            (Some (js "POST")) (VString (js " 2030-01-01T00:00:00.000Z "))
            VNull VNull VNull)).
Proof.
  destruct (proj1 (X6_events_body_sent sample_URL_ok sample_Date_parse
                     (fun _ => js "now") [] echo_fetch
                     (fun _ => Returned (js "key"))
                     (Some (js "https://example.com")) 0 None (js "id")
                     (mkEventInput (VString (js " /webhook ")) None
                        (VString (js " 2030-01-01T00:00:00.000Z "))
                        VNull VNull VNull))
                  _ eq_refl) as (u & Hu & _ & Hs).
  inversion Hu; subst u. rewrite Hs. reflexivity.
Defined.

(** X7: [crons.create] and [crons.update] never look at
    [cron_expression], [timezone], [payload] or [is_active]: two inputs
    that agree on the four validated fields are rejected with the same
    error or both accepted, and an accepted input keeps these four fields
    as the caller gave them. *)
Theorem X7_crons_unvalidated_fields
  (URL_ok : jsstring -> bool) (base : option jsstring)
  (input input' : CronInput) :
  same_validated_fields input input' ->
  thrown (CronsResource.create_validatedInput URL_ok base input)
  = thrown (CronsResource.create_validatedInput URL_ok base input') /\
  thrown (CronsResource.update_validatedInput URL_ok base input)
  = thrown (CronsResource.update_validatedInput URL_ok base input') /\
  (forall v,
     CronsResource.create_validatedInput URL_ok base input = Returned v
     \/ CronsResource.update_validatedInput URL_ok base input = Returned v ->
     cron_expression v = cron_expression input /\
     timezone v = timezone input /\
     c_payload v = c_payload input /\
     is_active v = is_active input).
Proof.
  intros (Hu & Hm & Hh & Hr).
  unfold CronsResource.create_validatedInput,
    CronsResource.update_validatedInput.
  cbn [c_retry_config c_headers].
  rewrite <- Hu, <- Hm, <- Hh, <- Hr.
  split; [|split].
  - destruct (validateMethod (method_or_POST (c_method input)));
      [|reflexivity]. cbn [bind].
    destruct (validateAndNormalizeWebhookUrl URL_ok base (c_webhook_url input));
      [|reflexivity]. cbn [bind].
    destruct (validateRetryConfig _); [|reflexivity]. cbn [bind].
    destruct (validateHeaders _); reflexivity.
  - destruct (validateMethod (c_method input)); [|reflexivity]. cbn [bind].
    destruct (validateAndNormalizeWebhookUrl URL_ok base (c_webhook_url input));
      [|reflexivity]. cbn [bind].
    destruct (validateRetryConfig _); [|reflexivity]. cbn [bind].
    destruct (validateHeaders _); reflexivity.
  - intros v [H|H];
      apply bind_Returned in H as (m & _ & H);
      apply bind_Returned in H as (u & _ & H);
      apply bind_Returned in H as (_ & _ & H);
      apply bind_Returned in H as (_ & _ & H);
      inversion H; subst v; repeat split.
Qed.

(** A malformed expression, and one that is not even a string, pass as a
    well-formed one does. *)
Lemma X7_witness :
  thrown (CronsResource.create_validatedInput sample_URL_ok None
            (sample_cron (VString (js "invalid cron"))))
  = thrown (CronsResource.create_validatedInput sample_URL_ok None
              (sample_cron (num 5)))
  /\ exists v,
       CronsResource.create_validatedInput sample_URL_ok None
         (sample_cron (VString (js "invalid cron"))) = Returned v
       /\ cron_expression v = VString (js "invalid cron").
Proof.
  split.
  - refine (proj1 (X7_crons_unvalidated_fields sample_URL_ok None
                     (sample_cron (VString (js "invalid cron")))
                     (sample_cron (num 5)) _)).
    repeat split.
  - eexists. split; [reflexivity|]. reflexivity.
Defined.

Lemma request_key_error API fetch getKey env path options e :
  getKey env = Thrown e ->
  HttpClient.request API fetch getKey env path options = Thrown e.
Proof. intros H. unfold HttpClient.request. now rewrite H. Qed.

(** X8: each of the four mutating operations first validates its input,
    then resolves the API key, then sends the request.  So an invalid
    input throws its [ValidationError] even when no API key can be
    resolved, and a valid input with no API key throws the error of the
    key, in both cases without the remote end having been consulted. *)
Theorem X8_validation_then_key_then_network
  (URL_ok : jsstring -> bool) (Date_parse : jsstring -> option Z)
  (toISOString : Z -> jsstring) (API : jsstring)
  (fetch : jsstring -> FetchInit -> Response)
  (getKey : ProcessEnv -> result jsstring) (base : option jsstring)
  (now : Z) (env : ProcessEnv) (id : jsstring)
  (event : EventInput) (cron : CronInput) :
  validation_then_key
    (EventsResource.create_validatedInput URL_ok Date_parse toISOString base
       now event)
    (getKey env)
    (EventsResource.create URL_ok Date_parse toISOString API fetch getKey
       base now env event) /\
  validation_then_key
    (EventsResource.update_validatedInput URL_ok Date_parse toISOString base
       now event)
    (getKey env)
    (EventsResource.update URL_ok Date_parse toISOString API fetch getKey
       base now env id event) /\
  validation_then_key
    (CronsResource.create_validatedInput URL_ok base cron)
    (getKey env)
    (CronsResource.create URL_ok API fetch getKey base env cron) /\
  validation_then_key
    (CronsResource.update_validatedInput URL_ok base cron)
    (getKey env)
    (CronsResource.update URL_ok API fetch getKey base env id cron).
Proof.
  unfold validation_then_key, EventsResource.create, EventsResource.update,
    CronsResource.create, CronsResource.update,
    HttpClient.post, HttpClient.put.
  repeat split; intros;
    match goal with
    | H : _ = Thrown _ |- bind ?r _ = _ =>
        try (rewrite H; reflexivity)
    end;
    match goal with
    | H : _ = Returned _, K : getKey env = Thrown _ |- _ =>
        rewrite H; cbn [bind];
        rewrite (request_key_error _ _ _ _ _ _ _ K); reflexivity
    end.
Qed.

(** With no API key anywhere, an invalid event input still throws the
    error of its validation. *)
Lemma X8_witness :
  EventsResource.update sample_URL_ok sample_Date_parse (fun _ => js "now")
    [] sample_fetch (getApiKey (mkConfig None None)) None 0 None (js "id")
    (sample_event (Some (js "post")))
  = throwValidation (method_message (js "post")) (method_details (js "post")).
Proof.
  exact (proj1 (proj1 (proj2 (X8_validation_then_key_then_network
           sample_URL_ok sample_Date_parse (fun _ => js "now") []
           sample_fetch (getApiKey (mkConfig None None)) None 0 None
           (js "id") (sample_event (Some (js "post")))
           (sample_cron VUndefined)))) _ eq_refl).
Defined.

(** ** The transport adapter: the errors it throws *)

Lemma request_const API key env path options response :
  HttpClient.request API (fun _ _ => response) (fun _ => Returned key) env
    path options
  = (data <- HttpClient.read_body response ;;
     if negb (ok response)
     then Thrown (HttpClient.handleError (status response) data)
     else Returned data).
Proof. reflexivity. Qed.

(** The error of [handleError] on a body that is an object or a
    primitive, field by field. *)
Lemma handleError_fields (s : Z) (data err : value) :
  read_error data = Returned err ->
  exists c,
    HttpClient.handleError s data = ECuey c /\
    taxonomy_ok c /\
    name c = class_of_status s (opt_prop err (js "code")) /\
    details c = opt_prop err (js "details") /\
    message c
    = if mapped_status s
      then or_else (opt_prop err (js "message"))
             (VString (default_message (name c)))
      else VString (js "Unexpected error: " ++ Z_to_js s).
Proof.
  intros E. unfold HttpClient.handleError, class_of_status, mapped_status.
  rewrite E.
  destruct (s =? 401); [eexists; repeat split|].
  destruct (s =? 404); [eexists; repeat split|].
  destruct (s =? 400).
  - destruct (is_validation_code _); eexists; repeat split.
  - destruct (s >=? 500); eexists; repeat split.
Qed.

Lemma read_body_cases (response : Response) :
  (exists v, HttpClient.read_body response = Returned v) \/
  (exists c, HttpClient.read_body response = Thrown (ECuey c)
             /\ taxonomy_ok c /\ name c = InternalServerError).
Proof.
  unfold HttpClient.read_body.
  destruct (content_type response) as [ct|]; [|eauto].
  destruct (includes ct (js "application/json")); [|eauto].
  destruct (json response); [eauto|].
  right. eexists. repeat split.
Qed.

(** X9: every [CueyError] that [request] throws carries the code and the
    status code of its class, not those of the response.  In particular a
    response whose status is none of 400, 401 and 404 (a 402, a 418, a
    503) surfaces as an [InternalServerError] with [statusCode] 500, and a
    400 never surfaces as anything but a [ValidationError] or a
    [BadRequestError], unless its JSON body fails to parse. *)
Theorem X9_request_errors_follow_taxonomy
  (API key : jsstring) (env : ProcessEnv) (path : jsstring)
  (options : RequestOptions) (response : Response) (c : CueyError) :
  HttpClient.request API (fun _ _ => response) (fun _ => Returned key) env
    path options = Thrown (ECuey c) ->
  taxonomy_ok c /\
  (status response <> 400 -> status response <> 401 ->
   status response <> 404 ->
   name c = InternalServerError /\ statusCode c = 500) /\
  (status response = 400 ->
   name c = ValidationError \/ name c = BadRequestError
   \/ name c = InternalServerError
      /\ exists e, HttpClient.read_body response = Thrown e).
Proof.
  rewrite request_const.
  destruct (read_body_cases response) as [[v Hv]|(c' & Hc & Ht & Hn)].
  2: { rewrite Hc. cbn [bind]. intros H; inversion H; subst c'.
       split; [exact Ht|]. split.
       - intros _ _ _. split; [exact Hn|].
         unfold taxonomy_ok in Ht. rewrite Hn in Ht. now inversion Ht.
       - intros _. right; right. split; [exact Hn | eauto]. }
  rewrite Hv. cbn [bind].
  destruct (negb (ok response)); [|discriminate].
  destruct (read_error v) as [err|e] eqn:E.
  2: { unfold HttpClient.handleError. rewrite E.
       destruct v; simpl in E; inversion E; discriminate. }
  destruct (handleError_fields (status response) v err E)
    as (c' & Hc & Ht & Hn & _).
  rewrite Hc. intros H; inversion H; subst c'.
  split; [exact Ht|]. split.
  - intros H0 H1 H4. unfold class_of_status in Hn.
    apply Z.eqb_neq in H0, H1, H4. rewrite H0, H1, H4 in Hn.
    split; [exact Hn|].
    unfold taxonomy_ok in Ht. rewrite Hn in Ht. now inversion Ht.
  - intros H0. unfold class_of_status in Hn. rewrite H0 in Hn.
    cbn in Hn. destruct (is_validation_code _); auto.
Qed.

Lemma X9_witness :
  exists c,
    request_answered sample_402 (js "key") = Thrown (ECuey c)
    /\ name c = InternalServerError /\ statusCode c = 500.
Proof.
  eexists. split; [reflexivity|].
  refine (proj1 (proj2 (X9_request_errors_follow_taxonomy [] (js "key") None
                          [] (mkOptions None VUndefined []) sample_402 _
                          eq_refl)) _ _ _);
    discriminate.
Defined.

Lemma read_body_json (response : Response) :
  is_json response = true ->
  HttpClient.read_body response
  = match json response with
    | Parsed v => Returned v
    | ParseFailure reason =>
        Thrown (ECuey (newInternalServerError
          (VString (js "Failed to parse JSON response: " ++
             match reason with
             | Some m => m
             | None => js "Unknown error"
             end))
          VUndefined))
    end.
Proof.
  unfold is_json, HttpClient.read_body.
  destruct (content_type response) as [ct|]; [|discriminate].
  now intros ->.
Qed.

Lemma read_body_text (response : Response) :
  is_json response = false ->
  HttpClient.read_body response = Returned (VString (text response)).
Proof.
  unfold is_json, HttpClient.read_body.
  destruct (content_type response) as [ct|]; [|reflexivity].
  now intros ->.
Qed.

(** X10: for a non-2xx response whose JSON body is an object, the error
    that [request] throws is built with the [details] of the body's
    [error], and with the [message] of the body's [error] when that is a
    non-empty string, and with the default message of the class when it is
    falsy (absent, [null], empty, 0, [false]).  For a status that
    [handleError] has no branch for (below 500 and none of 400, 401, 404)
    the server's message is dropped: the message is
    [Unexpected error: <status>].  (A truthy message that is not a string
    reaches the constructor as it is; what [Error] makes of it is outside
    the model and nothing is stated about it.) *)
Theorem X10_server_message_and_details
  (API key : jsstring) (env : ProcessEnv) (path : jsstring)
  (options : RequestOptions) (response : Response)
  (props : list (jsstring * value)) :
  ok response = false ->
  is_json response = true ->
  json response = Parsed (VObject props) ->
  let err := lookup (js "error") props in
  exists c,
    HttpClient.request API (fun _ _ => response) (fun _ => Returned key) env
      path options = Thrown (ECuey c) /\
    name c = class_of_status (status response) (opt_prop err (js "code")) /\
    details c = opt_prop err (js "details") /\
    (mapped_status (status response) = true ->
     forall m, opt_prop err (js "message") = VString m -> m <> [] ->
     message c = VString m) /\
    (mapped_status (status response) = true ->
     truthy (opt_prop err (js "message")) = false ->
     message c = VString (default_message (name c))) /\
    (mapped_status (status response) = false ->
     message c
     = VString (js "Unexpected error: " ++ Z_to_js (status response))).
Proof.
  intros Hok Hj Hp err.
  destruct (handleError_fields (status response) (VObject props) err eq_refl)
    as (c & Hc & _ & Hn & Hd & Hm).
  exists c. rewrite request_const, (read_body_json _ Hj), Hp. cbn [bind].
  rewrite Hok. cbn [negb]. rewrite Hc.
  split; [reflexivity|]. split; [exact Hn|]. split; [exact Hd|].
  unfold or_else in Hm.
  destruct (mapped_status (status response)); repeat split;
    try (intros; discriminate).
  - intros _ m Em Hne. rewrite Em in Hm. cbn [truthy] in Hm.
    apply str_eqb_neq in Hne. now rewrite Hne in Hm.
  - intros _ Ht. now rewrite Ht in Hm.
  - intros _. exact Hm.
Qed.

Lemma X10_witness :
  (exists c,
     request_answered sample_402 (js "key") = Thrown (ECuey c) /\
     message c = VString (js "Unexpected error: 402") /\
     details c = VString (js "plan")) /\
  (exists c,
     request_answered sample_401 (js "key") = Thrown (ECuey c) /\
     message c = VString (js "Invalid API key") /\
     details c = VString (js "revoked")).
Proof.
  split.
  - destruct (X10_server_message_and_details [] (js "key") None []
                (mkOptions None VUndefined []) sample_402 _
                eq_refl eq_refl eq_refl) as (c & Hc & _ & Hd & _ & _ & Hm).
    exists c. split; [exact Hc|]. split; [exact (Hm eq_refl) | exact Hd].
  - destruct (X10_server_message_and_details [] (js "key") None []
                (mkOptions None VUndefined []) sample_401 _
                eq_refl eq_refl eq_refl) as (c & Hc & _ & Hd & Hm & _).
    exists c. split; [exact Hc|]. split; [|exact Hd].
    apply (Hm eq_refl (js "Invalid API key") eq_refl). discriminate.
Defined.

(** X11: for a non-2xx response that is not read as JSON (no content type,
    or one without [application/json]) the body is never looked into: the
    error has the default message of its class, or
    [Unexpected error: <status>], and no details; and a 400 is then always
    a [BadRequestError], never a [ValidationError]. *)
Theorem X11_non_json_error_body
  (API key : jsstring) (env : ProcessEnv) (path : jsstring)
  (options : RequestOptions) (response : Response) :
  ok response = false ->
  is_json response = false ->
  exists c,
    HttpClient.request API (fun _ _ => response) (fun _ => Returned key) env
      path options = Thrown (ECuey c) /\
    name c = class_of_status (status response) VUndefined /\
    name c <> ValidationError /\
    details c = VUndefined /\
    message c
    = VString (if mapped_status (status response)
               then default_message (name c)
               else js "Unexpected error: " ++ Z_to_js (status response)).
Proof.
  intros Hok Hj.
  destruct (handleError_fields (status response)
              (VString (text response)) VUndefined eq_refl)
    as (c & Hc & _ & Hn & Hd & Hm).
  exists c. rewrite request_const, (read_body_text _ Hj). cbn [bind].
  rewrite Hok. cbn [negb]. rewrite Hc.
  split; [reflexivity|]. split; [exact Hn|]. split.
  - rewrite Hn. unfold class_of_status.
    destruct (status response =? 401); [discriminate|].
    destruct (status response =? 404); [discriminate|].
    destruct (status response =? 400); discriminate.
  - split; [exact Hd|]. rewrite Hm.
    now destruct (mapped_status (status response)).
Qed.

Lemma X11_witness :
  exists c,
    request_answered sample_400_text (js "key") = Thrown (ECuey c) /\
    name c = BadRequestError /\
    message c = VString (js "Bad request").
Proof.
  destruct (X11_non_json_error_body [] (js "key") None []
              (mkOptions None VUndefined []) sample_400_text
              eq_refl eq_refl) as (c & Hc & Hn & _ & _ & Hm).
  exists c. split; [exact Hc|]. split; [exact Hn|].
  rewrite Hm, Hn. reflexivity.
Defined.

(** X12: on a 2xx response [request] returns the parsed body when the
    response is read as JSON and returns the text of the body, as a string,
    when it is not, even if that text is JSON.  A 2xx response read as JSON
    whose body fails to parse, an empty body included, throws an
    [InternalServerError] with [statusCode] 500: the success is lost. *)
Theorem X12_request_on_success
  (API key : jsstring) (env : ProcessEnv) (path : jsstring)
  (options : RequestOptions) (response : Response) :
  ok response = true ->
  let r :=
    HttpClient.request API (fun _ _ => response) (fun _ => Returned key) env
      path options in
  (is_json response = false -> r = Returned (VString (text response))) /\
  (is_json response = true ->
   forall v, json response = Parsed v -> r = Returned v) /\
  (is_json response = true ->
   forall reason, json response = ParseFailure reason ->
   exists c, r = Thrown (ECuey c) /\ name c = InternalServerError
             /\ statusCode c = 500).
Proof.
  intros Hok r. subst r. rewrite request_const, Hok. cbn [negb].
  split; [|split].
  - intros Hj. now rewrite (read_body_text _ Hj).
  - intros Hj v Hv. now rewrite (read_body_json _ Hj), Hv.
  - intros Hj reason Hv. rewrite (read_body_json _ Hj), Hv.
    eexists. repeat split.
Qed.

Lemma X12_witness :
  exists c,
    request_answered sample_204_empty (js "key") = Thrown (ECuey c)
    /\ name c = InternalServerError /\ statusCode c = 500.
Proof.
  exact (proj2 (proj2 (X12_request_on_success [] (js "key") None []
                         (mkOptions None VUndefined []) sample_204_empty
                         eq_refl))
               eq_refl _ eq_refl).
Defined.

(** ** The resource clients: envelopes and requests *)

(** X13: what [get], [list] and [delete], of events and of crons, make
    of a 2xx response.  When the body is read as JSON and parses, [list]
    returns it unmodified, [delete] returns whatever it is, and [get]
    returns its [data] property and checks nothing else: [undefined] and
    no error for an object without [data] and for a boolean, a number, a
    string or an array, a [TypeError] for [null].  When the body is not
    read as JSON, [list] returns its text, [delete] returns and [get]
    returns [undefined].  When the body is read as JSON and fails to
    parse, the three of them throw the same [InternalServerError]. *)
Theorem X13_envelopes
  (API key : jsstring) (env : ProcessEnv) (id q : jsstring)
  (response : Response) :
  ok response = true ->
  let fetch := fun (_ : jsstring) (_ : FetchInit) => response in
  let getKey := fun (_ : ProcessEnv) => Returned key in
  (forall v,
     is_json response = true -> json response = Parsed v ->
     let unwrapped :=
       match v with
       | VObject props => Returned (lookup (js "data") props)
       | VNull | VUndefined => Thrown ETypeError
       | VBool _ | VNumber _ | VString _ | VArray _ => Returned VUndefined
       end in
     EventsResource.get API fetch getKey env id = unwrapped /\
     CronsResource.get API fetch getKey env id = unwrapped /\
     EventsResource.list API fetch getKey env q = Returned v /\
     CronsResource.list API fetch getKey env q = Returned v /\
     EventsResource.delete API fetch getKey env id = Returned tt /\
     CronsResource.delete API fetch getKey env id = Returned tt) /\
  (is_json response = false ->
     EventsResource.get API fetch getKey env id = Returned VUndefined /\
     CronsResource.get API fetch getKey env id = Returned VUndefined /\
     EventsResource.list API fetch getKey env q
     = Returned (VString (text response)) /\
     CronsResource.list API fetch getKey env q
     = Returned (VString (text response)) /\
     EventsResource.delete API fetch getKey env id = Returned tt /\
     CronsResource.delete API fetch getKey env id = Returned tt) /\
  (forall reason,
     is_json response = true -> json response = ParseFailure reason ->
     exists c,
       name c = InternalServerError /\
       EventsResource.get API fetch getKey env id = Thrown (ECuey c) /\
       CronsResource.get API fetch getKey env id = Thrown (ECuey c) /\
       EventsResource.list API fetch getKey env q = Thrown (ECuey c) /\
       CronsResource.list API fetch getKey env q = Thrown (ECuey c) /\
       EventsResource.delete API fetch getKey env id = Thrown (ECuey c) /\
       CronsResource.delete API fetch getKey env id = Thrown (ECuey c)).
Proof.
  intros Hok fetch getKey.
  unfold EventsResource.get, CronsResource.get, EventsResource.list,
    CronsResource.list, EventsResource.delete, CronsResource.delete,
    HttpClient.get, HttpClient.delete.
  subst fetch getKey. rewrite !request_const, Hok. cbn [negb].
  split; [|split].
  - intros v Hj Hp.
    rewrite (read_body_json _ Hj), Hp. cbn [bind].
    destruct v; repeat split.
  - intros Hj. rewrite (read_body_text _ Hj). repeat split.
  - intros reason Hj Hp. rewrite (read_body_json _ Hj), Hp. cbn [bind].
    eexists. split; [|split; [reflexivity | repeat split]]. reflexivity.
Qed.

Lemma X13_witness :
  EventsResource.get [] (fun _ _ => sample_200_no_data)
    (fun _ => Returned (js "key")) None (js "id")
  = Returned VUndefined
  /\ EventsResource.delete [] (fun _ _ => sample_200_no_data)
       (fun _ => Returned (js "key")) None (js "id")
     = Returned tt
  /\ exists c,
       name c = InternalServerError /\
       EventsResource.delete [] (fun _ _ => sample_204_empty)
         (fun _ => Returned (js "key")) None (js "id")
       = Thrown (ECuey c).
Proof.
  pose proof (proj1 (X13_envelopes [] (js "key") None (js "id") []
                       sample_200_no_data eq_refl) _ eq_refl eq_refl)
    as (Hg & _ & _ & _ & Hd & _).
  destruct (proj2 (proj2 (X13_envelopes [] (js "key") None (js "id") []
                            sample_204_empty eq_refl)) _ eq_refl eq_refl)
    as (c & Hn & _ & _ & _ & _ & Hx & _).
  split; [exact Hg|]. split; [exact Hd|]. exists c. now split.
Defined.

(** X14: each call of [get], [post], [put] and [delete] consults the
    remote end once, at the constant base URL followed by the path, with
    the verb of its name, the headers [Content-Type: application/json] and
    [Authorization: Bearer <key>] for the key resolved at the call, and
    the body given ([get] and [delete] send none).  Two remote ends that
    answer this one request alike give the same result. *)
Theorem X14_the_request_sent
  (API : jsstring) (fetch fetch' : jsstring -> FetchInit -> Response)
  (getKey : ProcessEnv -> result jsstring) (env : ProcessEnv)
  (path key : jsstring) (body : value) :
  getKey env = Returned key ->
  let same verb b :=
    fetch (API ++ path) (mkInit verb (bearer_headers key) b)
    = fetch' (API ++ path) (mkInit verb (bearer_headers key) b) in
  (same (js "GET") None ->
   HttpClient.get API fetch getKey env path
   = HttpClient.get API fetch' getKey env path) /\
  (same (js "POST") (sent_body body) ->
   HttpClient.post API fetch getKey env path body
   = HttpClient.post API fetch' getKey env path body) /\
  (same (js "PUT") (sent_body body) ->
   HttpClient.put API fetch getKey env path body
   = HttpClient.put API fetch' getKey env path body) /\
  (same (js "DELETE") None ->
   HttpClient.delete API fetch getKey env path
   = HttpClient.delete API fetch' getKey env path).
Proof.
  intros Hk same. subst same.
  unfold HttpClient.get, HttpClient.post, HttpClient.put, HttpClient.delete,
    HttpClient.request.
  rewrite Hk. cbn [bind opt_method opt_body opt_headers assign].
  fold (bearer_headers key).
  change (match js "GET" with [] => js "GET" | c :: m => c :: m end)
    with (js "GET").
  change (match js "POST" with [] => js "GET" | c :: m => c :: m end)
    with (js "POST").
  change (match js "PUT" with [] => js "GET" | c :: m => c :: m end)
    with (js "PUT").
  change (match js "DELETE" with [] => js "GET" | c :: m => c :: m end)
    with (js "DELETE").
  repeat split; intros H; try (now rewrite H);
    destruct body; cbn [sent_body] in H; now rewrite H.
Qed.

Lemma X14_witness :
  HttpClient.get (js "https://api.example") sample_fetch
    (fun _ => Returned (js "secret")) None (js "/api/v1/events")
  = HttpClient.get (js "https://api.example") strict_fetch
      (fun _ => Returned (js "secret")) None (js "/api/v1/events").
Proof.
  exact (proj1 (X14_the_request_sent (js "https://api.example") sample_fetch
                  strict_fetch (fun _ => Returned (js "secret")) None
                  (js "/api/v1/events") (js "secret") VUndefined eq_refl)
               eq_refl).
Defined.

(** ** The query string of [list] *)

Lemma join_nonempty (sep x : jsstring) (l : list jsstring) :
  x <> [] -> join sep (x :: l) <> [].
Proof.
  intros Hx. simpl. destruct l; [exact Hx|].
  intros E. apply app_eq_nil in E as [E _]. contradiction.
Qed.

Lemma toString_nonempty encode (q : URLSearchParams) :
  q <> [] -> ListQuery.toString encode q <> [].
Proof.
  destruct q as [|[k v] q]; [congruence|]. intros _.
  unfold ListQuery.toString. cbn [map]. apply join_nonempty.
  intros E. apply app_eq_nil in E as [_ E]. discriminate.
Qed.

Lemma list_path_query (collection q : jsstring) :
  q <> [] -> list_path collection q = collection ++ js "?" ++ q.
Proof. destruct q; [congruence | reflexivity]. Qed.

(** X15: [list] sends one [name=value] pair for each filter that is not
    [undefined], in the order [page], [limit], then [status] and [cron_id]
    for events and [is_active] for crons; a [page] of 0 and an [is_active]
    of [false] are defined and therefore sent.  With no filter defined the
    path is the bare collection, with no question mark; otherwise it is the
    collection, a question mark and a non-empty query string. *)
Theorem X15_list_query
  (Number_toString : number -> jsstring) (encode : jsstring -> jsstring)
  (API : jsstring) (fetch : jsstring -> FetchInit -> Response)
  (getKey : ProcessEnv -> result jsstring) (env : ProcessEnv)
  (ep : option EventsQueryParams) (cp : option CronsQueryParams) :
  let qe := ListQuery.events_queryParams Number_toString ep in
  let qc := ListQuery.crons_queryParams Number_toString cp in
  qe = defined_pairs
         [(js "page", option_map Number_toString (opt_field ep eq_page));
          (js "limit", option_map Number_toString (opt_field ep eq_limit));
          (js "status", opt_field ep eq_status);
          (js "cron_id", opt_field ep eq_cron_id)] /\
  qc = defined_pairs
         [(js "page", option_map Number_toString (opt_field cp cq_page));
          (js "limit", option_map Number_toString (opt_field cp cq_limit));
          (js "is_active",
           option_map Boolean_toString (opt_field cp cq_is_active))] /\
  ListQuery.events_list Number_toString encode API fetch getKey env ep
  = HttpClient.get API fetch getKey env
      (match qe with
       | [] => js "/api/v1/events"
       | _ => js "/api/v1/events" ++ js "?" ++ ListQuery.toString encode qe
       end) /\
  ListQuery.crons_list Number_toString encode API fetch getKey env cp
  = HttpClient.get API fetch getKey env
      (match qc with
       | [] => js "/api/v1/crons"
       | _ => js "/api/v1/crons" ++ js "?" ++ ListQuery.toString encode qc
       end) /\
  (qe <> [] -> ListQuery.toString encode qe <> []) /\
  (qc <> [] -> ListQuery.toString encode qc <> []).
Proof.
  intros qe qc. split; [|split; [|split; [|split; [|split]]]].
  - subst qe. destruct ep as [[[p|] [l|] [s|] [c|]]|]; reflexivity.
  - subst qc. destruct cp as [[[p|] [l|] [a|]]|]; reflexivity.
  - unfold ListQuery.events_list, EventsResource.list. fold qe.
    destruct qe as [|x q] eqn:E; [reflexivity|].
    rewrite list_path_query; [reflexivity|].
    apply toString_nonempty. discriminate.
  - unfold ListQuery.crons_list, CronsResource.list. fold qc.
    destruct qc as [|x q] eqn:E; [reflexivity|].
    rewrite list_path_query; [reflexivity|].
    apply toString_nonempty. discriminate.
  - apply toString_nonempty.
  - apply toString_nonempty.
Qed.

(** The first page of the pending events, a hundred at a time. *)
Lemma X15_witness :
  ListQuery.events_list sample_Number_toString (fun s => s) [] sample_fetch
    (fun _ => Returned (js "key")) None
    (Some (mkEventsQuery (Some (Finite 0)) (Some (Finite 100))
             (Some (js "pending")) None))
  = HttpClient.get [] sample_fetch (fun _ => Returned (js "key")) None
      (js "/api/v1/events?page=0&limit=100&status=pending").
Proof.
  exact (proj1 (proj2 (proj2 (X15_list_query sample_Number_toString
           (fun s => s) [] sample_fetch (fun _ => Returned (js "key")) None
           (Some (mkEventsQuery (Some (Finite 0)) (Some (Finite 100))
                    (Some (js "pending")) None))
           None)))).
Defined.

(** ** The facade's aliases *)

(** X16: [schedule] and [repeat] are [events.create] and [crons.create]
    of resources that share two things fixed when the client was built:
    the key closure of its configuration, and the base URL resolved from
    the configuration and the environment of that moment.  The environment
    of the call matters for the key only: a base URL set, changed or
    removed in the environment after construction changes nothing. *)
Theorem X16_aliases_use_the_construction_time_base
  (URL_ok : jsstring -> bool) (Date_parse : jsstring -> option Z)
  (toISOString : Z -> jsstring) (API : jsstring)
  (fetch : jsstring -> FetchInit -> Response)
  (config : option CueyConfig) (env0 : ProcessEnv) :
  let base :=
    first_present (baseUrl (default_config config))
      (env_var env0 CUEY_BASE_URL) in
  let getKey := getApiKey (default_config config) in
  exists this,
    Cuey_new config env0 = Returned this /\
    (forall now env input,
       Facade.schedule URL_ok Date_parse toISOString API fetch this now env
         input
       = EventsResource.create URL_ok Date_parse toISOString API fetch getKey
           base now env input) /\
    (forall env input,
       Facade.repeat URL_ok API fetch this env input
       = CronsResource.create URL_ok API fetch getKey base env input).
Proof.
  intros base getKey. eexists. split; [reflexivity|].
  unfold Facade.schedule, Facade.repeat.
  cbn [webhookBaseUrl http_getApiKey]. fold (default_config config).
  rewrite resolve_first_present. fold base.
  assert (E : match of_opt base with
              | VString b => Some b
              | _ => None
              end = base) by now destruct base.
  rewrite E. split; reflexivity.
Qed.

(** A client built with an explicit base URL, used after the environment
    got another one: the relative path resolves against the explicit one. *)
Lemma X16_witness :
  exists this,
    Cuey_new (Some (mkConfig (Some (js "https://example.com")) None)) None
    = Returned this /\
    Facade.schedule sample_URL_ok sample_Date_parse (fun _ => js "now") []
      sample_fetch this 0
      (Some (mkEnv (Some (js "https://other.example")) (Some (js "key"))))
      (mkEventInput (VString (js "/webhook")) None
         (VString (js "2030-01-01T00:00:00.000Z")) VNull VNull VNull)
    = EventsResource.create sample_URL_ok sample_Date_parse
        (fun _ => js "now") [] sample_fetch
        (getApiKey (mkConfig (Some (js "https://example.com")) None))
        (Some (js "https://example.com")) 0
        (Some (mkEnv (Some (js "https://other.example")) (Some (js "key"))))
        (mkEventInput (VString (js "/webhook")) None
           (VString (js "2030-01-01T00:00:00.000Z")) VNull VNull VNull).
Proof.
  destruct (X16_aliases_use_the_construction_time_base sample_URL_ok
              sample_Date_parse (fun _ => js "now") [] sample_fetch
              (Some (mkConfig (Some (js "https://example.com")) None)) None)
    as (this & Hc & Hs & _).
  exists this. split; [exact Hc | apply Hs].
Defined.

(** ** The test setup *)

Lemma str_eqb_length (a b : jsstring) :
  str_eqb a b = true -> List.length a = List.length b.
Proof. intros H. apply str_eqb_eq in H. now subst. Qed.

Lemma replaceSuffix_app (suffix replacement x : jsstring) :
  replaceSuffix suffix replacement (x ++ suffix) = x ++ replacement.
Proof.
  induction x as [|c x IH].
  - destruct suffix; simpl; [reflexivity|].
    now rewrite N.eqb_refl, str_eqb_refl.
  - change ((c :: x) ++ suffix) with (c :: (x ++ suffix)).
    cbn [replaceSuffix]. rewrite IH.
    destruct (str_eqb (c :: x ++ suffix) suffix) eqn:E; [|reflexivity].
    apply str_eqb_length in E. simpl in E. rewrite length_app in E. lia.
Qed.

Lemma replaceSuffix_none (suffix replacement s : jsstring) :
  (forall x, s <> x ++ suffix) ->
  replaceSuffix suffix replacement s = s.
Proof.
  induction s as [|c r IH]; intros H.
  - cbn [replaceSuffix]. destruct (str_eqb [] suffix) eqn:E; [|reflexivity].
    apply str_eqb_eq in E. now contradiction (H []).
  - cbn [replaceSuffix].
    destruct (str_eqb (c :: r) suffix) eqn:E.
    + apply str_eqb_eq in E. contradiction (H []).
    + f_equal. apply IH. intros x Hx. apply (H (c :: x)). now rewrite Hx.
Qed.

Lemma suffix_dec (suffix s : jsstring) :
  (exists x, s = x ++ suffix) \/ (forall x, s <> x ++ suffix).
Proof.
  induction s as [|c r IH].
  - destruct suffix as [|a suffix].
    + left. now exists [].
    + right. intros x E. symmetry in E. apply app_eq_nil in E as [_ E].
      discriminate.
  - destruct IH as [[x ->]|IH]; [left; now exists (c :: x)|].
    destruct (str_eqb (c :: r) suffix) eqn:E.
    + apply str_eqb_eq in E. left. now exists [].
    + right. intros [|c' x] Hx.
      * apply str_eqb_neq in E. contradiction.
      * inversion Hx; subst. now apply (IH x).
Qed.

(** X17: [normalizeISOString] turns a final [+00:00] into [Z] and leaves
    every other string as it is, the empty one included; it is idempotent,
    and only the last of several final [+00:00] is replaced. *)
Theorem X17_normalizeISOString :
  (forall x, normalizeISOString (x ++ js "+00:00") = x ++ js "Z") /\
  (forall s, (forall x, s <> x ++ js "+00:00") -> normalizeISOString s = s) /\
  (forall s, normalizeISOString (normalizeISOString s) = normalizeISOString s).
Proof.
  assert (A : forall x, normalizeISOString (x ++ js "+00:00") = x ++ js "Z").
  { intros x. unfold normalizeISOString.
    destruct (x ++ js "+00:00") eqn:E.
    - apply app_eq_nil in E as [_ E]. discriminate.
    - rewrite <- E. cbn [truthy str_eqb negb].
      rewrite E. cbn [truthy str_eqb negb]. rewrite <- E.
      apply replaceSuffix_app. }
  assert (B : forall s, (forall x, s <> x ++ js "+00:00") ->
                        normalizeISOString s = s).
  { intros s H. unfold normalizeISOString.
    destruct (negb (truthy (VString s))); [reflexivity|].
    now apply replaceSuffix_none. }
  split; [exact A|]. split; [exact B|].
  intros s. destruct (suffix_dec (js "+00:00") s) as [[x ->]|H].
  - rewrite A. apply B. intros y E.
    change (js "Z") with [90%N] in E.
    change (js "+00:00") with (js "+00:0" ++ [48%N]) in E.
    rewrite app_assoc in E. apply app_inj_tail in E as [_ E]. discriminate.
  - now rewrite !(B s H).
Qed.

(** X18: [getTestClient] returns a client exactly when
    [isTestApiKeyAvailable] says so, and throws a plain [Error] otherwise.
    The client it returns resolves relative webhook URLs against
    [https://example.com] and authenticates with the test key, whatever the
    environment holds for the base URL and the API key. *)
Theorem X18_getTestClient (TEST_API_KEY : option jsstring) (env0 : ProcessEnv) :
  (TestSetup.isTestApiKeyAvailable TEST_API_KEY = false ->
   exists msg, TestSetup.getTestClient TEST_API_KEY env0 = Thrown (EError msg))
  /\
  (TestSetup.isTestApiKeyAvailable TEST_API_KEY = true ->
   exists this k,
     TEST_API_KEY = Some k /\
     TestSetup.getTestClient TEST_API_KEY env0 = Returned this /\
     webhookBaseUrl this = Some (js "https://example.com") /\
     forall env, http_getApiKey this env = Returned k).
Proof.
  unfold TestSetup.isTestApiKeyAvailable, TestSetup.getTestClient.
  split; intros H; rewrite H; cbn [negb].
  - eauto.
  - destruct TEST_API_KEY as [[|c k]|]; try discriminate.
    eexists _, (c :: k). split; [reflexivity|]. split; [reflexivity|].
    split; [reflexivity|]. intros env. cbn [http_getApiKey].
    rewrite getApiKey_first_present. reflexivity.
Qed.

Lemma X18_witness :
  exists this,
    TestSetup.getTestClient (Some (js "test-key"))
      (Some (mkEnv (Some (js "https://other.example")) (Some (js "other"))))
    = Returned this /\
    webhookBaseUrl this = Some (js "https://example.com") /\
    http_getApiKey this None = Returned (js "test-key").
Proof.
  destruct (proj2 (X18_getTestClient (Some (js "test-key"))
              (Some (mkEnv (Some (js "https://other.example"))
                       (Some (js "other"))))) eq_refl)
    as (this & k & Hk & Hc & Hb & Hg).
  inversion Hk; subst k.
  exists this. split; [exact Hc|]. split; [exact Hb | apply Hg].
Defined.
